(** * Admin dashboard aggregates of [backend/open_webui/routers/dashboard.py]

    A shallow embedding of the five read-only endpoints of the dashboard
    router, and the properties of their aggregates.

    Modelling conventions.
    - Python [int] is [Z].
    - Python [float] is read twice, and the endpoints are embedded once for
      each reading, line for line.  In the module [Float64] a float is an
      IEEE 754 binary64 number with the arithmetic of CPython: the figures
      of those endpoints are the figures of the code to the last bit, an
      int too large for a double raises [OverflowError], and every property
      that names the value of an MB figure or of a percentage, or the exact
      condition under which an operation fails, is stated there.  Outside
      that module a float is an exact rational [Q], an idealisation in which
      the laws of arithmetic hold: it serves the properties of counts,
      queries, order, sign and range, which do not hang on the way a double
      rounds.  The two readings part where an exact value lies half-way
      between two hundredths, as 0.125 + 0.1 does (0.22 over the rationals,
      0.23 in the doubles), and where an int is beyond the doubles.
    - A JSON column ([File.meta]) holds an arbitrary JSON value, [pyval]; a
      JSON object is a finite map from strings to values.
    - An endpoint is a computation in the monad [M]: it may raise a Python
      exception and it records every query it issues on the database
      handle.  [time.time()] is the argument [now]; writes to the log are
      not part of the model. *)

From Stdlib Require Import ZArith QArith Qround Qabs Lqa Lia Floats.
From Stdlib Require Import Permutation Sorted.
From stdpp Require Import base gmap strings list.

Set Warnings "-register-all".
Local Open Scope Z_scope.

(** ** Python values *)

Inductive pyval : Type :=
  | PNone
  | PBool (b : bool)
  | PInt (z : Z)
  | PFloat (q : Q)
  | PStr (s : string)
  | PList (l : list pyval)
  | PDict (d : gmap string pyval).

(** Truth value of a Python object, as tested by [if v] and [v and ...]. *)
Definition truthy (v : pyval) : bool :=
  match v with
  | PNone => false
  | PBool b => b
  | PInt z => negb (z =? 0)
  | PFloat q => negb (Qeq_bool q 0)
  | PStr s => negb (String.eqb s EmptyString)
  | PList l => match l with [] => false | _ :: _ => true end
  | PDict d => negb (bool_decide (d = ∅))
  end.

(** [isinstance(v, dict)] *)
Definition isinstance_dict (v : pyval) : bool :=
  match v with PDict _ => true | _ => false end.

(** [d.get(k, default)] *)
Definition dict_get (d : gmap string pyval) (k : string) (dflt : pyval) : pyval :=
  default dflt (d !! k).

(** [v in l] for a list [l] of string literals: [==] against each element;
    a value that is not a string equals none of them. *)
Definition py_in_strs (v : pyval) (l : list string) : bool :=
  match v with
  | PStr s => existsb (String.eqb s) l
  | _ => false
  end.

(** ** Exceptions and the endpoint monad *)

Inductive exn : Type :=
  | HTTPException (status_code : Z) (detail : string)
  | TypeError (msg : string)
  | ZeroDivisionError (msg : string)
  | OverflowError (msg : string).

Definition HTTP_400_BAD_REQUEST : Z := 400.
Definition HTTP_500_INTERNAL_SERVER_ERROR : Z := 500.

Inductive result (A : Type) : Type :=
  | Ok (a : A)
  | Raise (e : exn).
Arguments Ok {A} a.
Arguments Raise {A} e.

Inductive table : Type := TUser | TGroup | TChat | TFile | TKnowledge | TMessage.

(** The queries issued so far, oldest first. *)
Definition trace : Type := list table.

Definition M (A : Type) : Type := trace -> result A * trace.

Definition ret {A} (a : A) : M A := fun tr => (Ok a, tr).

Definition bind {A B} (m : M A) (k : A -> M B) : M B :=
  fun tr =>
    match m tr with
    | (Ok a, tr') => k a tr'
    | (Raise e, tr') => (Raise e, tr')
    end.

Definition raise {A} (e : exn) : M A := fun tr => (Raise e, tr).

(** [try: body except Exception as e: handler]; every exception of the model
    derives from [Exception]. *)
Definition try_except {A} (body : M A) (handler : exn -> M A) : M A :=
  fun tr =>
    match body tr with
    | (Ok a, tr') => (Ok a, tr')
    | (Raise e, tr') => handler e tr'
    end.

(** One query on the handle: the rows it yields, and its entry in the trace. *)
Definition db_query {A} (t : table) (rows : list A) : M (list A) :=
  fun tr => (Ok rows, tr ++ [t]).

Definition lift {A} (r : result A) : M A := fun tr => (r, tr).

Notation "'let*' x ':=' m 'in' k" := (bind m (fun x => k))
  (at level 10, x name, m at level 100, k at level 200).

Fixpoint mapM {A B} (f : A -> M B) (l : list A) : M (list B) :=
  match l with
  | [] => ret []
  | x :: l' => let* y := f x in let* ys := mapM f l' in ret (y :: ys)
  end.

Fixpoint foldM {A S} (f : S -> A -> M S) (l : list A) (s : S) : M S :=
  match l with
  | [] => ret s
  | x :: l' => let* s' := f s x in foldM f l' s'
  end.

(** [.count()] of a query. *)
Definition count {A} (l : list A) : Z := Z.of_nat (length l).

(** ** Numbers, over the rationals *)

(** Nearest integer, ties to the even one. *)
Definition round_half_even (q : Q) : Z :=
  let f := Qfloor q in
  match (q - inject_Z f ?= 1 # 2)%Q with
  | Lt => f
  | Gt => f + 1
  | Eq => if Z.even f then f else f + 1
  end.

(** [round(q, 2)] on an exact value. *)
Definition round2 (q : Q) : Q := inject_Z (round_half_even (q * 100)) / 100.

(** True division [a / b] of two exact values. *)
Definition py_div (a b : Q) : result Q :=
  if Qeq_bool b 0 then Raise (ZeroDivisionError "division by zero")
  else Ok (a / b)%Q.

(** [v / d] for a JSON value [v] and an integer [d]: true division on numbers
    ([bool] is a subclass of [int]), [TypeError] otherwise.  Over the
    rationals every number has its quotient; the int that is too large for
    a double, and raises, is in [Float64.py_truediv]. *)
Definition py_truediv (v : pyval) (d : Z) : result Q :=
  match v with
  | PInt z => py_div (inject_Z z) (inject_Z d)
  | PBool b => py_div (inject_Z (Z.b2z b)) (inject_Z d)
  | PFloat q => py_div q (inject_Z d)
  | _ => Raise (TypeError "unsupported operand type(s) for /")
  end.

Definition Qlt_bool (x y : Q) : bool := negb (Qle_bool y x).

(** ** The store *)

Module User.
Record t := mk { id : string; name : string; email : string; last_active_at : Z }.
End User.

Module Group.
(** [user_ids] may be NULL. *)
Record t := mk { id : string; name : string; user_ids : option (list string) }.
End Group.

Module Chat.
Record t := mk { user_id : string; created_at : Z }.
End Chat.

Module File.
Record t := mk { user_id : string; created_at : Z; meta : pyval }.
End File.

Module Knowledge.
Record t := mk { user_id : string; created_at : Z }.
End Knowledge.

Module Message.
(** [created_at] is in nanoseconds. *)
Record t := mk { user_id : string; created_at : Z }.
End Message.

Record Store := mkStore {
  users : list User.t;
  groups : list Group.t;
  chats : list Chat.t;
  files : list File.t;
  knowledge : list Knowledge.t;
  messages : list Message.t
}.

(** ** Response models *)

Module UserStorageStats.
Record t := mk {
    user_id : string;
    user_name : string;
    user_email : string;
    total_chats : Z;
    total_files : Z;
    total_images : Z;
    total_knowledge : Z;
    total_messages : Z;
    storage_usage_mb : Q;
    last_active : Z
  }.
End UserStorageStats.

Module ContentTypeStats.
Record t := mk {
    content_type : string;
    count : Z;
    percentage : Q;
    total_size_mb : Q
  }.
End ContentTypeStats.

Module GroupStats.
Record t := mk {
    group_id : string;
    group_name : string;
    member_count : Z;
    total_chats : Z;
    total_files : Z;
    total_images : Z;
    total_knowledge : Z;
    total_messages : Z;
    storage_usage_mb : Q
  }.
End GroupStats.

Module DashboardOverview.
Record t := mk {
    total_users : Z;
    active_users_7d : Z;
    active_users_30d : Z;
    total_chats : Z;
    total_files : Z;
    total_images : Z;
    total_knowledge : Z;
    total_messages : Z;
    total_storage_mb : Q;
    content_type_breakdown : list ContentTypeStats.t;
    top_users_by_storage : list UserStorageStats.t;
    top_groups_by_activity : list GroupStats.t
  }.
End DashboardOverview.

Module TimeRangeStats.
Record t := mk {
    period : string;
    chats_created : Z;
    files_uploaded : Z;
    images_generated : Z;
    messages_sent : Z;
    storage_used_mb : Q
  }.
End TimeRangeStats.

(** ** Collaborators outside the router *)

(** Modelled from the spec: [Users.get_users(limit=...)] of
    [open_webui.models.users] is not part of the sources at hand; the spec
    has the collector "fetch all users (optionally capped)", so the users
    come in the store's fetch order and a limit keeps the first [limit] of
    them. *)
Definition Users_get_users (db : Store) (limit : option Z) : M (list User.t) :=
  db_query TUser
    (match limit with
     | Some n => firstn (Z.to_nat n) (users db)
     | None => users db
     end).

(** Modelled from the spec: [Users.get_num_users()] is the count of all
    users. *)
Definition Users_get_num_users (db : Store) : M Z :=
  let* rows := db_query TUser (users db) in ret (count rows).

(** Modelled from the spec: [Groups.get_groups()] fetches all groups. *)
Definition Groups_get_groups (db : Store) : M (list Group.t) :=
  db_query TGroup (groups db).

(** [db.query(T).filter(...).count()] *)
Definition db_count {A} (t : table) (rows : list A) : M Z :=
  let* r := db_query t rows in ret (count r).

(** The rows selected by [.filter(T.user_id == uid)]. *)
Definition chats_by_user (db : Store) (uid : string) : list Chat.t :=
  List.filter (fun c => String.eqb (Chat.user_id c) uid) (chats db).
Definition files_by_user (db : Store) (uid : string) : list File.t :=
  List.filter (fun f => String.eqb (File.user_id f) uid) (files db).
Definition knowledge_by_user (db : Store) (uid : string) : list Knowledge.t :=
  List.filter (fun k => String.eqb (Knowledge.user_id k) uid) (knowledge db).
Definition messages_by_user (db : Store) (uid : string) : list Message.t :=
  List.filter (fun m => String.eqb (Message.user_id m) uid) (messages db).

(** [and_(created_at >= period_start, created_at < period_end)] *)
Definition in_period (period_start period_end created_at : Z) : bool :=
  (period_start <=? created_at) && (created_at <? period_end).

(** The rows selected by that filter. *)
Definition chats_in (db : Store) (lo hi : Z) : list Chat.t :=
  List.filter (fun c => in_period lo hi (Chat.created_at c)) (chats db).
Definition files_in (db : Store) (lo hi : Z) : list File.t :=
  List.filter (fun f => in_period lo hi (File.created_at f)) (files db).
Definition knowledge_in (db : Store) (lo hi : Z) : list Knowledge.t :=
  List.filter (fun k => in_period lo hi (Knowledge.created_at k)) (knowledge db).
Definition messages_in (db : Store) (lo hi : Z) : list Message.t :=
  List.filter (fun m => in_period lo hi (Message.created_at m)) (messages db).

(** [list.sort(key=key, reverse=True)]: the stable sort into descending
    order of the keys.  An element goes in front of the first element of the
    sorted tail whose key is not greater than its own, so that it stays in
    front of the later elements of equal key. *)
Section Sort.
Context {A K : Type} (ltb : K -> K -> bool) (key : A -> K).

Fixpoint insert_desc (x : A) (l : list A) : list A :=
  match l with
  | [] => [x]
  | y :: l' =>
      if ltb (key x) (key y) then y :: insert_desc x l' else x :: y :: l'
  end.

Fixpoint sort_reverse (l : list A) : list A :=
  match l with
  | [] => []
  | x :: l' => insert_desc x (sort_reverse l')
  end.
End Sort.

(** [l[:n]] *)
Definition py_slice_to {A} (n : Z) (l : list A) : list A :=
  if 0 <=? n then firstn (Z.to_nat n) l
  else firstn (length l - Z.to_nat (- n))%nat l.

(** [range(n)] *)
Definition py_range (n : Z) : list Z := map Z.of_nat (seq 0 (Z.to_nat n)).

(** ** Classifier and declared sizes *)

Definition image_types : list string :=
  ["image/png"; "image/jpeg"; "image/gif"; "image/webp"]%string.

(** The test of the image-counting loops:
    [file.meta and isinstance(file.meta, dict)], then
    [file.meta.get('content_type', '') in [...]]. *)
Definition is_image (file : File.t) : bool :=
  if truthy (File.meta file) && isinstance_dict (File.meta file) then
    match File.meta file with
    | PDict d => py_in_strs (dict_get d "content_type" (PStr EmptyString)) image_types
    | _ => false
    end
  else false.

(** [n = 0; for file in l: if <is image>: n += 1] *)
Definition count_images (l : list File.t) : Z :=
  fold_left (fun n file => if is_image file then n + 1 else n) l 0.

(** [file.meta['size']] under the guard
    [file.meta and isinstance(file.meta, dict) and 'size' in file.meta]. *)
Definition declared_size (file : File.t) : option pyval :=
  if truthy (File.meta file) && isinstance_dict (File.meta file) then
    match File.meta file with
    | PDict d => d !! "size"%string
    | _ => None
    end
  else None.

(** One turn of the file-storage loops:
    [if <guard>: acc += file.meta['size'] / (1024 * 1024)]. *)
Definition add_file_mb (acc : Q) (file : File.t) : M Q :=
  match declared_size file with
  | Some v => let* x := lift (py_truediv v (1024 * 1024)) in ret (acc + x)%Q
  | None => ret acc
  end.

Definition files_storage (l : list File.t) (acc : Q) : M Q :=
  foldM add_file_mb l acc.

(** ** Content-type breakdown (lines 139-157 and 463-481) *)

Definition content_types
    (total_chats total_files total_images total_knowledge total_messages : Z)
    (files_storage_mb : Q) : list (string * Z * Q) :=
  let knowledge_storage_mb := inject_Z (total_knowledge * 1) in
  let chats_storage_mb := (inject_Z total_chats * (1 # 10))%Q in
  let messages_storage_mb := (inject_Z total_messages * (1 # 100))%Q in
  [ ("chats"%string, total_chats, chats_storage_mb);
    ("files"%string, total_files, files_storage_mb);
    ("images"%string, total_images, (files_storage_mb * (3 # 10))%Q);
    ("knowledge"%string, total_knowledge, knowledge_storage_mb);
    ("messages"%string, total_messages, messages_storage_mb) ].

(** [sum(ct["count"] for ct in content_types)] *)
Definition sum_counts (cts : list (string * Z * Q)) : Z :=
  fold_left (fun s ct => s + snd (fst ct)) cts 0.

(** [(ct["count"] / total_content * 100) if total_content > 0 else 0] *)
Definition percentage_of (count total_content : Z) : M Q :=
  if 0 <? total_content
  then let* r := lift (py_div (inject_Z count) (inject_Z total_content)) in
       ret (r * 100)%Q
  else ret 0%Q.

Definition content_type_stats (cts : list (string * Z * Q)) : M (list ContentTypeStats.t) :=
  let total_content := sum_counts cts in
  mapM (fun ct =>
          let* percentage := percentage_of (snd (fst ct)) total_content in
          ret (ContentTypeStats.mk (fst (fst ct)) (snd (fst ct))
                 (round2 percentage) (round2 (snd ct))))
       cts.

(** ** Per-user statistics (lines 164-203 and 305-344) *)

Definition user_storage_stats (db : Store) (user_obj : User.t) : M UserStorageStats.t :=
  let uid := User.id user_obj in
  let* user_chats :=
    db_count TChat (chats_by_user db uid) in
  let* user_files :=
    db_count TFile (files_by_user db uid) in
  let* user_file_list :=
    db_query TFile (files_by_user db uid) in
  let user_images := count_images user_file_list in
  let* user_knowledge :=
    db_count TKnowledge (knowledge_by_user db uid) in
  let* user_messages :=
    db_count TMessage (messages_by_user db uid) in
  let* user_storage_mb := files_storage user_file_list 0%Q in
  let user_storage_mb := (user_storage_mb + inject_Z (user_knowledge * 1))%Q in
  let user_storage_mb := (user_storage_mb + inject_Z user_chats * (1 # 10))%Q in
  let user_storage_mb := (user_storage_mb + inject_Z user_messages * (1 # 100))%Q in
  ret (UserStorageStats.mk uid (User.name user_obj) (User.email user_obj)
         user_chats user_files user_images user_knowledge user_messages
         (round2 user_storage_mb) (User.last_active_at user_obj)).

(** ** Per-group statistics (lines 213-265 and 368-420) *)

Record group_acc := mk_group_acc {
  group_chats : Z;
  group_files : Z;
  group_images : Z;
  group_knowledge : Z;
  group_messages : Z;
  group_storage_mb : Q
}.

(** One turn of [for user_id in group.user_ids]. *)
Definition group_member_step (db : Store) (acc : group_acc) (user_id : string) : M group_acc :=
  let* user_chats :=
    db_count TChat (chats_by_user db user_id) in
  let* user_files :=
    db_count TFile (files_by_user db user_id) in
  let* user_file_list :=
    db_query TFile (files_by_user db user_id) in
  let user_images_count := count_images user_file_list in
  let* user_knowledge :=
    db_count TKnowledge (knowledge_by_user db user_id) in
  let* user_messages :=
    db_count TMessage (messages_by_user db user_id) in
  let* storage := files_storage user_file_list (group_storage_mb acc) in
  let storage := (storage + inject_Z (user_knowledge * 1))%Q in
  let storage := (storage + inject_Z user_chats * (1 # 10))%Q in
  let storage := (storage + inject_Z user_messages * (1 # 100))%Q in
  ret (mk_group_acc
         (group_chats acc + user_chats)
         (group_files acc + user_files)
         (group_images acc + user_images_count)
         (group_knowledge acc + user_knowledge)
         (group_messages acc + user_messages)
         storage).

(** The ids the member loop runs over: none when [group.user_ids] is NULL or
    empty ([if group.user_ids]). *)
Definition members (group : Group.t) : list string :=
  default [] (Group.user_ids group).

Definition group_stats_of (db : Store) (group : Group.t) : M GroupStats.t :=
  let member_count := count (members group) in
  let* acc := foldM (group_member_step db) (members group)
                (mk_group_acc 0 0 0 0 0 0%Q) in
  ret (GroupStats.mk (Group.id group) (Group.name group) member_count
         (group_chats acc) (group_files acc) (group_images acc)
         (group_knowledge acc) (group_messages acc)
         (round2 (group_storage_mb acc))).

(** The key of the group ranking. *)
Definition group_activity (x : GroupStats.t) : Z :=
  GroupStats.total_chats x + GroupStats.total_files x
  + GroupStats.total_images x + GroupStats.total_knowledge x.

(** ** The endpoints *)

(** [GET /overview] *)
Definition get_dashboard_overview (db : Store) (now : Z) : M DashboardOverview.t :=
  try_except
    (let* total_users := Users_get_num_users db in
     let seven_days_ago := now - 7 * 24 * 60 * 60 in
     let thirty_days_ago := now - 30 * 24 * 60 * 60 in
     let* active_users_7d :=
       db_count TUser
         (List.filter (fun u => seven_days_ago <=? User.last_active_at u) (users db)) in
     let* active_users_30d :=
       db_count TUser
         (List.filter (fun u => thirty_days_ago <=? User.last_active_at u) (users db)) in
     let* total_chats := db_count TChat (chats db) in
     let* total_files := db_count TFile (files db) in
     let* total_knowledge := db_count TKnowledge (knowledge db) in
     let* total_messages := db_count TMessage (messages db) in
     let* files := db_query TFile (files db) in
     let total_images := count_images files in
     let* files_storage_mb := files_storage files 0%Q in
     let knowledge_storage_mb := inject_Z (total_knowledge * 1) in
     let chats_storage_mb := (inject_Z total_chats * (1 # 10))%Q in
     let messages_storage_mb := (inject_Z total_messages * (1 # 100))%Q in
     let total_storage_mb :=
       (files_storage_mb + knowledge_storage_mb + chats_storage_mb
        + messages_storage_mb)%Q in
     let* content_type_breakdown :=
       content_type_stats
         (content_types total_chats total_files total_images total_knowledge
            total_messages files_storage_mb) in
     let* users := Users_get_users db None in
     let* user_stats := mapM (user_storage_stats db) users in
     let user_stats := sort_reverse Qlt_bool UserStorageStats.storage_usage_mb user_stats in
     let top_users_by_storage := py_slice_to 10 user_stats in
     let* groups := Groups_get_groups db in
     let* group_stats := mapM (group_stats_of db) groups in
     let group_stats := sort_reverse Z.ltb group_activity group_stats in
     let top_groups_by_activity := py_slice_to 10 group_stats in
     ret (DashboardOverview.mk total_users active_users_7d active_users_30d
            total_chats total_files total_images total_knowledge total_messages
            (round2 total_storage_mb) content_type_breakdown
            top_users_by_storage top_groups_by_activity))
    (fun e =>
       raise (HTTPException HTTP_500_INTERNAL_SERVER_ERROR
                "Failed to get dashboard overview")).

(** [GET /users/storage] *)
Definition get_users_storage_stats (db : Store) (limit : option Z)
    : M (list UserStorageStats.t) :=
  try_except
    (let* users := Users_get_users db limit in
     let* user_stats := mapM (user_storage_stats db) users in
     ret (sort_reverse Qlt_bool UserStorageStats.storage_usage_mb user_stats))
    (fun e =>
       raise (HTTPException HTTP_500_INTERNAL_SERVER_ERROR
                "Failed to get users storage statistics")).

(** [GET /groups/activity]; [group_stats[:limit] if limit else group_stats]. *)
Definition get_groups_activity_stats (db : Store) (limit : option Z)
    : M (list GroupStats.t) :=
  try_except
    (let* groups := Groups_get_groups db in
     let* group_stats := mapM (group_stats_of db) groups in
     let group_stats := sort_reverse Z.ltb group_activity group_stats in
     ret (match limit with
          | Some n => if n =? 0 then group_stats else py_slice_to n group_stats
          | None => group_stats
          end))
    (fun e =>
       raise (HTTPException HTTP_500_INTERNAL_SERVER_ERROR
                "Failed to get groups activity statistics")).

(** [GET /content/types] *)
Definition get_content_type_statistics (db : Store) : M (list ContentTypeStats.t) :=
  try_except
    (let* total_chats := db_count TChat (chats db) in
     let* total_files := db_count TFile (files db) in
     let* total_knowledge := db_count TKnowledge (knowledge db) in
     let* total_messages := db_count TMessage (messages db) in
     let* files_list := db_query TFile (files db) in
     let total_images := count_images files_list in
     let* files_storage_mb := files_storage files_list 0%Q in
     content_type_stats
       (content_types total_chats total_files total_images total_knowledge
          total_messages files_storage_mb))
    (fun e =>
       raise (HTTPException HTTP_500_INTERNAL_SERVER_ERROR
                "Failed to get content type statistics")).

Section TimeSeries.
(** [datetime.fromtimestamp(t).strftime("%Y-%m-%d")]: the calendar day of
    [t] in the time zone of the server. *)
Variable strftime_date : Z -> string.

(** The body of [for i in range(days)]. *)
Definition period_stats (db : Store) (start_time i : Z) : M TimeRangeStats.t :=
  let period_start := start_time + i * 24 * 60 * 60 in
  let period_end := period_start + 24 * 60 * 60 in
  let* chats_created :=
    db_count TChat (chats_in db period_start period_end) in
  let* files_uploaded :=
    db_count TFile (files_in db period_start period_end) in
  let* period_files :=
    db_query TFile (files_in db period_start period_end) in
  let images_generated := count_images period_files in
  let* knowledge_created :=
    db_count TKnowledge (knowledge_in db period_start period_end) in
  let period_start_ns := period_start * 1000000000 in
  let period_end_ns := period_end * 1000000000 in
  let* messages_sent :=
    db_count TMessage (messages_in db period_start_ns period_end_ns) in
  let* storage_used_mb := files_storage period_files 0%Q in
  let storage_used_mb := (storage_used_mb + inject_Z (knowledge_created * 1))%Q in
  let storage_used_mb := (storage_used_mb + inject_Z chats_created * (1 # 10))%Q in
  let storage_used_mb := (storage_used_mb + inject_Z messages_sent * (1 # 100))%Q in
  ret (TimeRangeStats.mk (strftime_date period_start)
         chats_created files_uploaded images_generated messages_sent
         (round2 storage_used_mb)).

(** [GET /time-series] *)
Definition get_time_series_statistics (db : Store) (period : string) (now : Z)
    : M (list TimeRangeStats.t) :=
  try_except
    (let* days :=
       if String.eqb period "7d" then ret 7
       else if String.eqb period "30d" then ret 30
       else if String.eqb period "90d" then ret 90
       else raise (HTTPException HTTP_400_BAD_REQUEST
                     "Invalid period. Use 7d, 30d, or 90d") in
     let start_time := now - days * 24 * 60 * 60 in
     let* total_chats := db_count TChat (chats db) in
     let* total_files := db_count TFile (files db) in
     let* total_messages := db_count TMessage (messages db) in
     let* total_knowledge := db_count TKnowledge (knowledge db) in
     let* sample_messages := db_query TMessage (firstn 5 (messages db)) in
     mapM (period_stats db start_time) (py_range days))
    (fun e =>
       raise (HTTPException HTTP_500_INTERNAL_SERVER_ERROR
                "Failed to get time series statistics")).
End TimeSeries.

(** Running an endpoint on a fresh handle. *)
Definition run {A} (m : M A) : result A * trace := m [].

(** [m] returns [v] without raising, after issuing the queries [t]. *)
Definition runs {A} (m : M A) (v : A) (t : trace) : Prop :=
  forall tr, m tr = (Ok v, tr ++ t).

(** [m] returns [v]: from every trace, without raising. *)
Definition returns {A} (m : M A) (v : A) : Prop :=
  forall tr, exists tr', m tr = (Ok v, tr').

(** The queries behind the row of one user. *)
Definition user_queries : trace := [TChat; TFile; TFile; TKnowledge; TMessage].

(** ** The estimates in the words of the specification *)

Definition is_number (v : pyval) : bool :=
  match v with
  | PInt _ | PBool _ | PFloat _ => true
  | _ => false
  end.

Definition number_value (v : pyval) : Q :=
  match v with
  | PInt z => inject_Z z
  | PBool b => inject_Z (Z.b2z b)
  | PFloat q => q
  | _ => 0%Q
  end.

(** Every declared size of the store is a number. *)
Definition size_numeric (file : File.t) : bool :=
  match declared_size file with
  | Some v => is_number v
  | None => true
  end.

Definition sizes_numeric (db : Store) : bool := forallb size_numeric (files db).



(** Files: the declared byte size divided by 1,048,576; a file lacking a
    declared size contributes 0. *)
Definition file_mb (file : File.t) : Q :=
  match declared_size file with
  | Some v => (number_value v / 1048576)%Q
  | None => 0%Q
  end.

Definition sumQ (l : list Q) : Q := fold_right Qplus 0%Q l.
Definition sumZ (l : list Z) : Z := fold_right Z.add 0 l.

Definition files_mb (l : list File.t) : Q := sumQ (map file_mb l).

(** [files_mb + knowledge_count×1 + chats_count×0.1 + messages_count×0.01],
    not rounded. *)
Definition estimate_mb (fs : list File.t) (knowledge_count chats_count messages_count : Z) : Q :=
  (files_mb fs + inject_Z knowledge_count * 1 + inject_Z chats_count * (1 # 10)
   + inject_Z messages_count * (1 # 100))%Q.

(** The unrounded estimate of the entities one user owns. *)
Definition user_mb (db : Store) (uid : string) : Q :=
  estimate_mb (files_by_user db uid) (count (knowledge_by_user db uid))
    (count (chats_by_user db uid)) (count (messages_by_user db uid)).


(** The users a listing with the given limit fetches. *)
Definition fetched_users (db : Store) (limit : option Z) : list User.t :=
  match limit with
  | Some n => firstn (Z.to_nat n) (users db)
  | None => users db
  end.



(** The five category figures of a scope, not rounded. *)
Definition chats_mb (n : Z) : Q := (inject_Z n * (1 # 10))%Q.
Definition images_mb (fs : list File.t) : Q := (files_mb fs * (3 # 10))%Q.
Definition knowledge_mb (n : Z) : Q := inject_Z n.
Definition messages_mb (n : Z) : Q := (inject_Z n * (1 # 100))%Q.

(** The window of bucket [i] of a series anchored at [anchor]. *)
Definition bucket_start (anchor i : Z) : Z := anchor + i * 86400.
Definition bucket_end (anchor i : Z) : Z := anchor + (i + 1) * 86400.


(** The share of one category in the total count, in percent; 0 when there
    is nothing to count. *)
Definition percentage (count total : Z) : Q :=
  if 0 <? total then (inject_Z count / inject_Z total * 100)%Q else 0%Q.

(** The five rows of the content-type breakdown of the whole store. *)
Definition breakdown (db : Store) : list ContentTypeStats.t :=
  let c := count (chats db) in
  let f := count (files db) in
  let i := count_images (files db) in
  let k := count (knowledge db) in
  let m := count (messages db) in
  let total := c + f + i + k + m in
  [ ContentTypeStats.mk "chats" c (round2 (percentage c total)) (round2 (chats_mb c));
    ContentTypeStats.mk "files" f (round2 (percentage f total))
      (round2 (files_mb (files db)));
    ContentTypeStats.mk "images" i (round2 (percentage i total))
      (round2 (images_mb (files db)));
    ContentTypeStats.mk "knowledge" k (round2 (percentage k total))
      (round2 (knowledge_mb k));
    ContentTypeStats.mk "messages" m (round2 (percentage m total))
      (round2 (messages_mb m)) ].


(** The row of bucket [i]: the entities created in its window, the messages
    being compared in nanoseconds. *)
Definition bucket_row (strftime_date : Z -> string) (db : Store) (anchor i : Z)
    : TimeRangeStats.t :=
  let lo := bucket_start anchor i in
  let hi := bucket_end anchor i in
  let msgs := messages_in db (lo * 1000000000) (hi * 1000000000) in
  TimeRangeStats.mk (strftime_date lo)
    (count (chats_in db lo hi))
    (count (files_in db lo hi))
    (count_images (files_in db lo hi))
    (count msgs)
    (round2 (estimate_mb (files_in db lo hi) (count (knowledge_in db lo hi))
               (count (chats_in db lo hi)) (count msgs))).

(** The number of days of a period keyword. *)
Definition period_days (period : string) : option Z :=
  if String.eqb period "7d" then Some 7
  else if String.eqb period "30d" then Some 30
  else if String.eqb period "90d" then Some 90
  else None.

(** The rows of [l] created in the half-open interval from [lo] to [hi]. *)
Definition within {A} (created : A -> Z) (lo hi : Z) (l : list A) : list A :=
  List.filter (fun x => bool_decide (lo <= created x < hi)) l.

(** The limit of the listings when the caller gives none. *)
Definition default_limit : option Z := Some 50.




(** ** Sample stores *)

Definition file_of_size (uid : string) (created : Z) (size : Z) : File.t :=
  File.mk uid created (PDict {[ "size"%string := PInt size ]}).

(** One file of one mebibyte, nothing else. *)
Definition store_one_file : Store :=
  mkStore [User.mk "u1" "Ann" "ann@example.org" 0] []
    [] [file_of_size "u1" 0 1048576] [] [].


(** The user of the example of the specification (files of 1,048,576,
    2,097,152 and 0 bytes, 2 knowledge entries, 10 chats, 100 messages), a
    second user who owns an image without a declared size and a file without
    metadata, and three groups. *)
Definition store_sample : Store :=
  mkStore
    [User.mk "u1" "Ann" "ann@example.org" 100; User.mk "u2" "Bob" "bob@example.org" 50]
    [Group.mk "g1" "Staff" (Some ["u1"; "u2"]%string);
     Group.mk "g2" "Admins" (Some ["u1"]%string);
     Group.mk "g3" "Empty" None]
    (repeat (Chat.mk "u1" 10) 10)
    [file_of_size "u1" 10 1048576; file_of_size "u1" 10 2097152; file_of_size "u1" 10 0;
     File.mk "u2" 5 PNone;
     File.mk "u2" 5 (PDict {[ "content_type"%string := PStr "image/png" ]})]
    (repeat (Knowledge.mk "u1" 10) 2)
    (repeat (Message.mk "u1" 10000000000) 100).

(** Two users who own one file of 5,243 bytes each (a little over 0.005 MB),
    and the group of the two. *)
Definition store_small_files : Store :=
  mkStore
    [User.mk "u1" "Ann" "ann@example.org" 0; User.mk "u2" "Bob" "bob@example.org" 0]
    [Group.mk "g1" "Staff" (Some ["u1"; "u2"]%string)]
    [] [file_of_size "u1" 0 5243; file_of_size "u2" 0 5243] [] [].

(** The labelling of the sample runs: one label for every instant. *)
Definition sample_strftime_date (t : Z) : string := "1970-01-01".

(** The store of the example with the users fetched in the other order. *)
Definition store_heavy_last : Store :=
  mkStore (rev (users store_sample)) (groups store_sample) (chats store_sample)
    (files store_sample) (knowledge store_sample) (messages store_sample).

(** ** Further notions *)


(** The queries of the content-type endpoint. *)
Definition content_type_queries : trace := [TChat; TFile; TKnowledge; TMessage; TFile].

(** The queries of the overview up to its file-storage loop. *)
Definition overview_first_queries : trace :=
  [TUser; TUser; TUser; TChat; TFile; TKnowledge; TMessage; TFile].




(** A store with a file whose declared size is a string. *)
Definition store_malformed_size : Store :=
  mkStore (users store_sample) (groups store_sample) (chats store_sample)
    (File.mk "u2" 5 (PDict {[ "size"%string := PStr "12 kB" ]}) :: files store_sample)
    (knowledge store_sample) (messages store_sample).

(** The queries behind one bucket of the series. *)
Definition bucket_queries : trace := [TChat; TFile; TFile; TKnowledge; TMessage].

(** The queries of the series before its first bucket. *)
Definition series_first_queries : trace := [TChat; TFile; TMessage; TKnowledge; TMessage].

(** ** Notions shared by the two readings of the arithmetic *)

(** The rows of [l] that belong to the user [uid]. *)
Definition owned {A} (owner : A -> string) (uid : string) (l : list A) : list A :=
  List.filter (fun x => bool_decide (owner x = uid)) l.

(** The files of [l] that the classifier takes for images. *)
Definition images (l : list File.t) : list File.t := List.filter is_image l.

(** The ids a group lists, none when the column is NULL. *)
Definition listed_ids (g : Group.t) : list string :=
  match Group.user_ids g with
  | Some ids => ids
  | None => []
  end.

(** The number of rows of a listing of [n] rows cut by [limit]: no cut
    without a limit or with the limit 0, the first [k] rows for a positive
    [k], all but the last [-k] rows for a negative [k]. *)
Definition rows_kept (limit : option Z) (n : nat) : nat :=
  match limit with
  | None => n
  | Some 0 => n
  | Some (Z.pos k) => Nat.min (Pos.to_nat k) n
  | Some (Z.neg k) => (n - Pos.to_nat k)%nat
  end.




(** * The endpoints over binary64

    The same five endpoints with the arithmetic of CPython.  A [float] is an
    IEEE 754 binary64 number; [+], [*] and [/] on floats round to nearest,
    ties to even; an [int] that meets a float is first converted by
    [float()]; [int / int] is the correctly rounded quotient, and raises
    [OverflowError] when that quotient is beyond the doubles; [round(x, 2)]
    is the double nearest to the exact value of [x] rounded half to even at
    the second decimal.  A JSON number with a fraction or an exponent is its
    literal, read as [float()] reads it; the literals [NaN] and [Infinity],
    which are not JSON, are not values of the model.

    An accumulator that the source starts at the int [0] starts here at the
    float [0.0]: the first float added to the int [0] gives [0.0 + x], and
    the ints added before any float are converted when the first float
    meets them, to the same double.  [list.sort] is the stable sort of the
    definitions above; where a key is a NaN, which [<] does not order, the
    place of a row is left open by Python, and no property below speaks of
    the order of the per-user rows in this reading. *)

Module Float64.

(** The double nearest to [n / d], ties to even; the infinity of the same
    sign when [n / d] is beyond the doubles. *)
Definition nearest (negative : bool) (n d : positive) : float :=
  SF2Prim (SFdiv prec emax (S754_finite negative n 0) (S754_finite false d 0)).

(** [float(z)] for an int inside the range of the doubles, where every row
    count and every constant of the source lies. *)
Definition of_int (z : Z) : float := SF2Prim (binary_normalize prec emax z 0 false).

(** Half-way between the largest double and [2 ** 1024]: a magnitude rounds
    to a double when it is below this, and is beyond the doubles from this
    on. *)
Definition overflow_threshold : Z := 2 ^ 1024 - 2 ^ 970.

(** The double nearest to [a / b], for [b] other than 0. *)
Definition quotient (a b : Z) : float :=
  match a with
  | 0 => if b <? 0 then neg_zero else zero
  | _ => nearest (xorb (a <? 0) (b <? 0)) (Z.to_pos (Z.abs a)) (Z.to_pos (Z.abs b))
  end.

(** [a / b] on two ints. *)
Definition int_truediv (a b : Z) : result float :=
  if b =? 0 then Raise (ZeroDivisionError "division by zero")
  else if overflow_threshold * Z.abs b <=? Z.abs a
       then Raise (OverflowError "integer division result too large for a float")
       else Ok (quotient a b).

(** [x / y] on two floats. *)
Definition float_truediv (x y : float) : result float :=
  if PrimFloat.eqb y zero then Raise (ZeroDivisionError "float division by zero")
  else Ok (x / y)%float.

(** The float of a decimal literal. *)
Definition float_literal (q : Q) : float :=
  match Qnum q with
  | 0 => zero
  | Z.pos n => nearest false n (Qden q)
  | Z.neg n => nearest true n (Qden q)
  end.

(** The exact value of a finite double of sign [s], mantissa [m] and
    exponent [e]. *)
Definition exact_value (s : bool) (m : positive) (e : Z) : Q :=
  let a := match e with
           | Z.neg k => Z.pos m # 2 ^ k
           | _ => inject_Z (Z.pos m * 2 ^ e)
           end in
  if s then Qopp a else a.

(** [round(x, 2)] on a float: infinities and NaN are returned as they
    are. *)
Definition round2 (x : float) : float :=
  match Prim2SF x with
  | S754_finite s m e =>
      match round_half_even (exact_value s m e * 100) with
      | 0 => if s then neg_zero else zero
      | Z.pos n => nearest false n 100
      | Z.neg n => nearest true n 100
      end
  | _ => x
  end.

(** [v / d] for a JSON value [v] and an int [d]. *)
Definition py_truediv (v : pyval) (d : Z) : result float :=
  match v with
  | PInt z => int_truediv z d
  | PBool b => int_truediv (Z.b2z b) d
  | PFloat q => float_truediv (float_literal q) (of_int d)
  | _ => Raise (TypeError "unsupported operand type(s) for /")
  end.

(** ** Response models *)

Module UserStorageStats.
Record t := mk {
    user_id : string;
    user_name : string;
    user_email : string;
    total_chats : Z;
    total_files : Z;
    total_images : Z;
    total_knowledge : Z;
    total_messages : Z;
    storage_usage_mb : float;
    last_active : Z
  }.
End UserStorageStats.

Module ContentTypeStats.
Record t := mk {
    content_type : string;
    count : Z;
    percentage : float;
    total_size_mb : float
  }.
End ContentTypeStats.

Module GroupStats.
Record t := mk {
    group_id : string;
    group_name : string;
    member_count : Z;
    total_chats : Z;
    total_files : Z;
    total_images : Z;
    total_knowledge : Z;
    total_messages : Z;
    storage_usage_mb : float
  }.
End GroupStats.

Module DashboardOverview.
Record t := mk {
    total_users : Z;
    active_users_7d : Z;
    active_users_30d : Z;
    total_chats : Z;
    total_files : Z;
    total_images : Z;
    total_knowledge : Z;
    total_messages : Z;
    total_storage_mb : float;
    content_type_breakdown : list ContentTypeStats.t;
    top_users_by_storage : list UserStorageStats.t;
    top_groups_by_activity : list GroupStats.t
  }.
End DashboardOverview.

Module TimeRangeStats.
Record t := mk {
    period : string;
    chats_created : Z;
    files_uploaded : Z;
    images_generated : Z;
    messages_sent : Z;
    storage_used_mb : float
  }.
End TimeRangeStats.

(** ** File storage *)

(** One turn of the file-storage loops:
    [if <guard>: acc += file.meta['size'] / (1024 * 1024)]. *)
Definition add_file_mb (acc : float) (file : File.t) : M float :=
  match declared_size file with
  | Some v => let* x := lift (py_truediv v (1024 * 1024)) in ret (acc + x)%float
  | None => ret acc
  end.

Definition files_storage (l : list File.t) (acc : float) : M float :=
  foldM add_file_mb l acc.

(** ** Content-type breakdown (lines 139-157 and 463-481) *)

Definition content_types
    (total_chats total_files total_images total_knowledge total_messages : Z)
    (files_storage_mb : float) : list (string * Z * float) :=
  let knowledge_storage_mb := of_int (total_knowledge * 1) in
  let chats_storage_mb := (of_int total_chats * float_literal (1 # 10))%float in
  let messages_storage_mb := (of_int total_messages * float_literal (1 # 100))%float in
  [ ("chats"%string, total_chats, chats_storage_mb);
    ("files"%string, total_files, files_storage_mb);
    ("images"%string, total_images, (files_storage_mb * float_literal (3 # 10))%float);
    ("knowledge"%string, total_knowledge, knowledge_storage_mb);
    ("messages"%string, total_messages, messages_storage_mb) ].

(** [sum(ct["count"] for ct in content_types)] *)
Definition sum_counts (cts : list (string * Z * float)) : Z :=
  fold_left (fun s ct => s + snd (fst ct)) cts 0.

(** [(ct["count"] / total_content * 100) if total_content > 0 else 0] *)
Definition percentage_of (count total_content : Z) : M float :=
  if 0 <? total_content
  then let* r := lift (int_truediv count total_content) in
       ret (r * of_int 100)%float
  else ret (of_int 0).

Definition content_type_stats (cts : list (string * Z * float))
    : M (list ContentTypeStats.t) :=
  let total_content := sum_counts cts in
  mapM (fun ct =>
          let* percentage := percentage_of (snd (fst ct)) total_content in
          ret (ContentTypeStats.mk (fst (fst ct)) (snd (fst ct))
                 (round2 percentage) (round2 (snd ct))))
       cts.

(** ** Per-user statistics (lines 164-203 and 305-344) *)

Definition user_storage_stats (db : Store) (user_obj : User.t) : M UserStorageStats.t :=
  let uid := User.id user_obj in
  let* user_chats :=
    db_count TChat (chats_by_user db uid) in
  let* user_files :=
    db_count TFile (files_by_user db uid) in
  let* user_file_list :=
    db_query TFile (files_by_user db uid) in
  let user_images := count_images user_file_list in
  let* user_knowledge :=
    db_count TKnowledge (knowledge_by_user db uid) in
  let* user_messages :=
    db_count TMessage (messages_by_user db uid) in
  let* user_storage_mb := files_storage user_file_list zero in
  let user_storage_mb := (user_storage_mb + of_int (user_knowledge * 1))%float in
  let user_storage_mb :=
    (user_storage_mb + of_int user_chats * float_literal (1 # 10))%float in
  let user_storage_mb :=
    (user_storage_mb + of_int user_messages * float_literal (1 # 100))%float in
  ret (UserStorageStats.mk uid (User.name user_obj) (User.email user_obj)
         user_chats user_files user_images user_knowledge user_messages
         (round2 user_storage_mb) (User.last_active_at user_obj)).

(** ** Per-group statistics (lines 213-265 and 368-420) *)

Record group_acc := mk_group_acc {
  group_chats : Z;
  group_files : Z;
  group_images : Z;
  group_knowledge : Z;
  group_messages : Z;
  group_storage_mb : float
}.

(** One turn of [for user_id in group.user_ids]. *)
Definition group_member_step (db : Store) (acc : group_acc) (user_id : string) : M group_acc :=
  let* user_chats :=
    db_count TChat (chats_by_user db user_id) in
  let* user_files :=
    db_count TFile (files_by_user db user_id) in
  let* user_file_list :=
    db_query TFile (files_by_user db user_id) in
  let user_images_count := count_images user_file_list in
  let* user_knowledge :=
    db_count TKnowledge (knowledge_by_user db user_id) in
  let* user_messages :=
    db_count TMessage (messages_by_user db user_id) in
  let* storage := files_storage user_file_list (group_storage_mb acc) in
  let storage := (storage + of_int (user_knowledge * 1))%float in
  let storage := (storage + of_int user_chats * float_literal (1 # 10))%float in
  let storage := (storage + of_int user_messages * float_literal (1 # 100))%float in
  ret (mk_group_acc
         (group_chats acc + user_chats)
         (group_files acc + user_files)
         (group_images acc + user_images_count)
         (group_knowledge acc + user_knowledge)
         (group_messages acc + user_messages)
         storage).

Definition group_stats_of (db : Store) (group : Group.t) : M GroupStats.t :=
  let member_count := count (members group) in
  let* acc := foldM (group_member_step db) (members group)
                (mk_group_acc 0 0 0 0 0 zero) in
  ret (GroupStats.mk (Group.id group) (Group.name group) member_count
         (group_chats acc) (group_files acc) (group_images acc)
         (group_knowledge acc) (group_messages acc)
         (round2 (group_storage_mb acc))).

(** The key of the group ranking. *)
Definition group_activity (x : GroupStats.t) : Z :=
  GroupStats.total_chats x + GroupStats.total_files x
  + GroupStats.total_images x + GroupStats.total_knowledge x.

(** ** The endpoints *)

(** [GET /overview] *)
Definition get_dashboard_overview (db : Store) (now : Z) : M DashboardOverview.t :=
  try_except
    (let* total_users := Users_get_num_users db in
     let seven_days_ago := now - 7 * 24 * 60 * 60 in
     let thirty_days_ago := now - 30 * 24 * 60 * 60 in
     let* active_users_7d :=
       db_count TUser
         (List.filter (fun u => seven_days_ago <=? User.last_active_at u) (users db)) in
     let* active_users_30d :=
       db_count TUser
         (List.filter (fun u => thirty_days_ago <=? User.last_active_at u) (users db)) in
     let* total_chats := db_count TChat (chats db) in
     let* total_files := db_count TFile (files db) in
     let* total_knowledge := db_count TKnowledge (knowledge db) in
     let* total_messages := db_count TMessage (messages db) in
     let* files := db_query TFile (files db) in
     let total_images := count_images files in
     let* files_storage_mb := files_storage files zero in
     let knowledge_storage_mb := of_int (total_knowledge * 1) in
     let chats_storage_mb := (of_int total_chats * float_literal (1 # 10))%float in
     let messages_storage_mb := (of_int total_messages * float_literal (1 # 100))%float in
     let total_storage_mb :=
       (files_storage_mb + knowledge_storage_mb + chats_storage_mb
        + messages_storage_mb)%float in
     let* content_type_breakdown :=
       content_type_stats
         (content_types total_chats total_files total_images total_knowledge
            total_messages files_storage_mb) in
     let* users := Users_get_users db None in
     let* user_stats := mapM (user_storage_stats db) users in
     let user_stats :=
       sort_reverse PrimFloat.ltb UserStorageStats.storage_usage_mb user_stats in
     let top_users_by_storage := py_slice_to 10 user_stats in
     let* groups := Groups_get_groups db in
     let* group_stats := mapM (group_stats_of db) groups in
     let group_stats := sort_reverse Z.ltb group_activity group_stats in
     let top_groups_by_activity := py_slice_to 10 group_stats in
     ret (DashboardOverview.mk total_users active_users_7d active_users_30d
            total_chats total_files total_images total_knowledge total_messages
            (round2 total_storage_mb) content_type_breakdown
            top_users_by_storage top_groups_by_activity))
    (fun e =>
       raise (HTTPException HTTP_500_INTERNAL_SERVER_ERROR
                "Failed to get dashboard overview")).

(** [GET /users/storage] *)
Definition get_users_storage_stats (db : Store) (limit : option Z)
    : M (list UserStorageStats.t) :=
  try_except
    (let* users := Users_get_users db limit in
     let* user_stats := mapM (user_storage_stats db) users in
     ret (sort_reverse PrimFloat.ltb UserStorageStats.storage_usage_mb user_stats))
    (fun e =>
       raise (HTTPException HTTP_500_INTERNAL_SERVER_ERROR
                "Failed to get users storage statistics")).

(** [GET /groups/activity]; [group_stats[:limit] if limit else group_stats]. *)
Definition get_groups_activity_stats (db : Store) (limit : option Z)
    : M (list GroupStats.t) :=
  try_except
    (let* groups := Groups_get_groups db in
     let* group_stats := mapM (group_stats_of db) groups in
     let group_stats := sort_reverse Z.ltb group_activity group_stats in
     ret (match limit with
          | Some n => if n =? 0 then group_stats else py_slice_to n group_stats
          | None => group_stats
          end))
    (fun e =>
       raise (HTTPException HTTP_500_INTERNAL_SERVER_ERROR
                "Failed to get groups activity statistics")).

(** [GET /content/types] *)
Definition get_content_type_statistics (db : Store) : M (list ContentTypeStats.t) :=
  try_except
    (let* total_chats := db_count TChat (chats db) in
     let* total_files := db_count TFile (files db) in
     let* total_knowledge := db_count TKnowledge (knowledge db) in
     let* total_messages := db_count TMessage (messages db) in
     let* files_list := db_query TFile (files db) in
     let total_images := count_images files_list in
     let* files_storage_mb := files_storage files_list zero in
     content_type_stats
       (content_types total_chats total_files total_images total_knowledge
          total_messages files_storage_mb))
    (fun e =>
       raise (HTTPException HTTP_500_INTERNAL_SERVER_ERROR
                "Failed to get content type statistics")).

Section TimeSeries.
Variable strftime_date : Z -> string.

(** The body of [for i in range(days)]. *)
Definition period_stats (db : Store) (start_time i : Z) : M TimeRangeStats.t :=
  let period_start := start_time + i * 24 * 60 * 60 in
  let period_end := period_start + 24 * 60 * 60 in
  let* chats_created :=
    db_count TChat (chats_in db period_start period_end) in
  let* files_uploaded :=
    db_count TFile (files_in db period_start period_end) in
  let* period_files :=
    db_query TFile (files_in db period_start period_end) in
  let images_generated := count_images period_files in
  let* knowledge_created :=
    db_count TKnowledge (knowledge_in db period_start period_end) in
  let period_start_ns := period_start * 1000000000 in
  let period_end_ns := period_end * 1000000000 in
  let* messages_sent :=
    db_count TMessage (messages_in db period_start_ns period_end_ns) in
  let* storage_used_mb := files_storage period_files zero in
  let storage_used_mb := (storage_used_mb + of_int (knowledge_created * 1))%float in
  let storage_used_mb :=
    (storage_used_mb + of_int chats_created * float_literal (1 # 10))%float in
  let storage_used_mb :=
    (storage_used_mb + of_int messages_sent * float_literal (1 # 100))%float in
  ret (TimeRangeStats.mk (strftime_date period_start)
         chats_created files_uploaded images_generated messages_sent
         (round2 storage_used_mb)).

(** [GET /time-series] *)
Definition get_time_series_statistics (db : Store) (period : string) (now : Z)
    : M (list TimeRangeStats.t) :=
  try_except
    (let* days :=
       if String.eqb period "7d" then ret 7
       else if String.eqb period "30d" then ret 30
       else if String.eqb period "90d" then ret 90
       else raise (HTTPException HTTP_400_BAD_REQUEST
                     "Invalid period. Use 7d, 30d, or 90d") in
     let start_time := now - days * 24 * 60 * 60 in
     let* total_chats := db_count TChat (chats db) in
     let* total_files := db_count TFile (files db) in
     let* total_messages := db_count TMessage (messages db) in
     let* total_knowledge := db_count TKnowledge (knowledge db) in
     let* sample_messages := db_query TMessage (firstn 5 (messages db)) in
     mapM (period_stats db start_time) (py_range days))
    (fun e =>
       raise (HTTPException HTTP_500_INTERNAL_SERVER_ERROR
                "Failed to get time series statistics")).
End TimeSeries.


(** ** The estimates in the words of the specification *)

(** The declared size of a file: the value of the key [size] of a metadata
    mapping. *)
Definition size_in_meta (file : File.t) : option pyval :=
  match File.meta file with
  | PDict d => d !! "size"%string
  | _ => None
  end.

(** A declared size in MB: the bytes divided by 1,048,576.  There is none
    for a value that is not a number, and none for an int whose quotient is
    beyond the doubles. *)
Definition size_mb (v : pyval) : option float :=
  match v with
  | PInt z =>
      if Z.abs z <? overflow_threshold * 1048576 then Some (quotient z 1048576) else None
  | PBool b => Some (quotient (Z.b2z b) 1048576)
  | PFloat q => Some (float_literal q / of_int 1048576)%float
  | _ => None
  end.

(** The declared size of the file, if any, has its MB. *)
Definition size_fits (file : File.t) : bool :=
  match size_in_meta file with
  | Some v => match size_mb v with Some _ => true | None => false end
  | None => true
  end.

Definition sizes_fit (l : list File.t) : bool := forallb size_fits l.

(** What one file adds to a sum of MB: its declared size in MB, and nothing
    when it declares none. *)
Definition file_mb (file : File.t) : list float :=
  match size_in_meta file with
  | Some v => match size_mb v with Some x => [x] | None => [] end
  | None => []
  end.

Definition megabytes (l : list File.t) : list float := flat_map file_mb l.

(** A sum of floats, taken from left to right on top of [acc]. *)
Definition add_up (acc : float) (xs : list float) : float := fold_left PrimFloat.add xs acc.

(** [files_mb]: the sum of the declared sizes in MB, not rounded. *)
Definition files_mb (l : list File.t) : float := add_up zero (megabytes l).

(** [files_mb + knowledge_count * 1 + chats_count * 0.1 + messages_count * 0.01],
    not rounded. *)
Definition estimate_mb (fs : list File.t) (knowledge_count chats_count messages_count : Z)
    : float :=
  (files_mb fs + of_int (knowledge_count * 1)
   + of_int chats_count * float_literal (1 # 10)
   + of_int messages_count * float_literal (1 # 100))%float.

(** The unrounded estimate of the entities one user owns. *)
Definition user_mb (db : Store) (uid : string) : float :=
  estimate_mb (owned File.user_id uid (files db))
    (count (owned Knowledge.user_id uid (knowledge db)))
    (count (owned Chat.user_id uid (chats db)))
    (count (owned Message.user_id uid (messages db))).

(** The summary of one user. *)
Definition user_row (db : Store) (u : User.t) : UserStorageStats.t :=
  let uid := User.id u in
  UserStorageStats.mk uid (User.name u) (User.email u)
    (count (owned Chat.user_id uid (chats db)))
    (count (owned File.user_id uid (files db)))
    (count (images (owned File.user_id uid (files db))))
    (count (owned Knowledge.user_id uid (knowledge db)))
    (count (owned Message.user_id uid (messages db)))
    (round2 (user_mb db uid))
    (User.last_active_at u).


(** The running sum of a group after one more member: on top of [acc], the
    declared sizes of the member's files in MB, one by one, then the
    member's knowledge entries, chats and messages at their rates. *)
Definition member_add (db : Store) (acc : float) (uid : string) : float :=
  (add_up acc (megabytes (owned File.user_id uid (files db)))
   + of_int (count (owned Knowledge.user_id uid (knowledge db)) * 1)
   + of_int (count (owned Chat.user_id uid (chats db))) * float_literal (1 # 10)
   + of_int (count (owned Message.user_id uid (messages db))) * float_literal (1 # 100))%float.

(** The accumulators of a group after the ids [ids], on top of [acc]. *)
Definition group_after (db : Store) (acc : group_acc) (ids : list string) : group_acc :=
  mk_group_acc
    (group_chats acc
     + sumZ (map (fun uid => count (owned Chat.user_id uid (chats db))) ids))
    (group_files acc
     + sumZ (map (fun uid => count (owned File.user_id uid (files db))) ids))
    (group_images acc
     + sumZ (map (fun uid => count (images (owned File.user_id uid (files db)))) ids))
    (group_knowledge acc
     + sumZ (map (fun uid => count (owned Knowledge.user_id uid (knowledge db))) ids))
    (group_messages acc
     + sumZ (map (fun uid => count (owned Message.user_id uid (messages db))) ids))
    (fold_left (member_add db) ids (group_storage_mb acc)).

(** The storage figure of a group: the running sum over its ids, in their
    order and with their multiplicity, rounded once. *)
Definition group_mb (db : Store) (ids : list string) : float :=
  round2 (fold_left (member_add db) ids zero).

(** The storage figure the members' own estimates add up to. *)
Definition sum_of_member_estimates (db : Store) (ids : list string) : float :=
  round2 (add_up zero (map (user_mb db) ids)).

(** The row of one group: sums over the ids it lists. *)
Definition group_row (db : Store) (g : Group.t) : GroupStats.t :=
  let ids := listed_ids g in
  GroupStats.mk (Group.id g) (Group.name g) (count ids)
    (sumZ (map (fun uid => count (owned Chat.user_id uid (chats db))) ids))
    (sumZ (map (fun uid => count (owned File.user_id uid (files db))) ids))
    (sumZ (map (fun uid => count (images (owned File.user_id uid (files db)))) ids))
    (sumZ (map (fun uid => count (owned Knowledge.user_id uid (knowledge db))) ids))
    (sumZ (map (fun uid => count (owned Message.user_id uid (messages db))) ids))
    (group_mb db ids).

(** The share of a count in a total, in percent; 0 when nothing is
    counted. *)
Definition share (count total : Z) : float :=
  if 0 <? total then (quotient count total * of_int 100)%float else of_int 0.

(** The five rows of the breakdown of the whole store. *)
Definition breakdown (db : Store) : list ContentTypeStats.t :=
  let c := count (chats db) in
  let f := count (files db) in
  let i := count (images (files db)) in
  let k := count (knowledge db) in
  let m := count (messages db) in
  let total := c + f + i + k + m in
  let mb := files_mb (files db) in
  [ ContentTypeStats.mk "chats" c (round2 (share c total))
      (round2 (of_int c * float_literal (1 # 10)));
    ContentTypeStats.mk "files" f (round2 (share f total)) (round2 mb);
    ContentTypeStats.mk "images" i (round2 (share i total))
      (round2 (mb * float_literal (3 # 10)));
    ContentTypeStats.mk "knowledge" k (round2 (share k total)) (round2 (of_int (k * 1)));
    ContentTypeStats.mk "messages" m (round2 (share m total))
      (round2 (of_int m * float_literal (1 # 100))) ].

(** The row of the bucket that starts [i] days after [anchor]: the entities
    created in its 24 hours, the messages being compared in nanoseconds. *)
Definition bucket_row (strftime_date : Z -> string) (db : Store) (anchor i : Z)
    : TimeRangeStats.t :=
  let lo := anchor + i * 86400 in
  let hi := anchor + (i + 1) * 86400 in
  let fs := within File.created_at lo hi (files db) in
  let msgs := within Message.created_at (lo * 1000000000) (hi * 1000000000) (messages db) in
  TimeRangeStats.mk (strftime_date lo)
    (count (within Chat.created_at lo hi (chats db)))
    (count fs)
    (count (images fs))
    (count msgs)
    (round2 (estimate_mb fs (count (within Knowledge.created_at lo hi (knowledge db)))
               (count (within Chat.created_at lo hi (chats db))) (count msgs))).

End Float64.

(** ** Sample stores for the arithmetic of the doubles *)

(** One user who owns a file of 131,072 bytes (0.125 MB) and one chat. *)
Definition store_eighth_and_chat : Store :=
  mkStore [User.mk "u1" "Ann" "ann@example.org" 0]
    [Group.mk "g1" "Staff" (Some ["u1"]%string)]
    [Chat.mk "u1" 0] [file_of_size "u1" 0 131072] [] [].

(** One file of 262,144 bytes (0.25 MB), nothing else. *)
Definition store_quarter_file : Store :=
  mkStore [User.mk "u1" "Ann" "ann@example.org" 0] []
    [] [file_of_size "u1" 0 262144] [] [].

(** 23 chats and 137 messages. *)
Definition store_23_of_160 : Store :=
  mkStore [User.mk "u1" "Ann" "ann@example.org" 0] []
    (repeat (Chat.mk "u1" 0) 23) [] [] (repeat (Message.mk "u1" 0) 137).

(** One file whose declared size is the int [10 ** 400]. *)
Definition store_huge_size : Store :=
  mkStore [User.mk "u1" "Ann" "ann@example.org" 0]
    [Group.mk "g1" "Staff" (Some ["u1"]%string)]
    [] [file_of_size "u1" 0 (10 ^ 400)] [] [].

(** A group of two: the first member owns one chat, the second a file of
    917,504 bytes (0.875 MB) and three chats. *)
Definition store_group_of_two : Store :=
  mkStore
    [User.mk "u1" "Ann" "ann@example.org" 0; User.mk "u2" "Bob" "bob@example.org" 0]
    [Group.mk "g1" "Staff" (Some ["u1"; "u2"]%string)]
    [Chat.mk "u1" 0; Chat.mk "u2" 0; Chat.mk "u2" 0; Chat.mk "u2" 0]
    [file_of_size "u2" 0 917504] [] [].

(** * Properties *)

(** ** Running computations *)

Lemma returns_ret {A} (a : A) : returns (ret a) a.
Proof. intros tr. exists tr. reflexivity. Qed.

Lemma returns_bind {A B} (m : M A) (k : A -> M B) (a : A) (b : B) :
  returns m a -> returns (k a) b -> returns (bind m k) b.
Proof.
  intros Hm Hk tr. unfold bind.
  destruct (Hm tr) as [tr1 ->]. apply Hk.
Qed.

Lemma returns_db_query {A} (t : table) (rows : list A) : returns (db_query t rows) rows.
Proof. intros tr. eexists. reflexivity. Qed.

Lemma returns_db_count {A} (t : table) (rows : list A) : returns (db_count t rows) (count rows).
Proof.
  unfold db_count. eapply returns_bind; [apply returns_db_query | apply returns_ret].
Qed.

Lemma returns_lift {A} (a : A) : returns (lift (Ok a)) a.
Proof. intros tr. exists tr. reflexivity. Qed.

Lemma returns_try_except {A} (body : M A) (handler : exn -> M A) (a : A) :
  returns body a -> returns (try_except body handler) a.
Proof.
  intros Hb tr. unfold try_except. destruct (Hb tr) as [tr1 ->]. eauto.
Qed.

Lemma returns_run {A} (m : M A) (a : A) : returns m a -> fst (run m) = Ok a.
Proof. intros H. unfold run. destruct (H []) as [tr ->]. reflexivity. Qed.

Lemma returns_mapM {A B} (f : A -> M B) (g : A -> B) (l : list A) :
  Forall (fun x => returns (f x) (g x)) l -> returns (mapM f l) (map g l).
Proof.
  induction 1 as [|x l Hx _ IH]; simpl.
  - apply returns_ret.
  - eapply returns_bind; [exact Hx|].
    eapply returns_bind; [exact IH|]. apply returns_ret.
Qed.

Lemma returns_mapM_all {A B} (f : A -> M B) (g : A -> B) (l : list A) :
  (forall x, returns (f x) (g x)) -> returns (mapM f l) (map g l).
Proof. intros H. apply returns_mapM, Forall_forall. auto. Qed.

Lemma runs_returns {A} (m : M A) (v : A) (t : trace) : runs m v t -> returns m v.
Proof. intros H tr. exists (tr ++ t). apply H. Qed.

Lemma runs_trace {A} (m : M A) (v : A) (t : trace) : runs m v t -> run m = (Ok v, t).
Proof. intros H. apply (H []). Qed.

Lemma runs_eq {A} (m : M A) (v : A) (t t' : trace) : runs m v t -> t = t' -> runs m v t'.
Proof. intros H <-. exact H. Qed.

Lemma runs_ret {A} (a : A) : runs (ret a) a [].
Proof. intros tr. unfold ret. rewrite app_nil_r. reflexivity. Qed.

Lemma runs_bind {A B} (m : M A) (k : A -> M B) (a : A) (b : B) (t1 t2 : trace) :
  runs m a t1 -> runs (k a) b t2 -> runs (bind m k) b (t1 ++ t2).
Proof.
  intros Hm Hk tr. unfold bind. rewrite Hm, Hk, app_assoc. reflexivity.
Qed.

Lemma runs_db_query {A} (t : table) (rows : list A) : runs (db_query t rows) rows [t].
Proof. intros tr. reflexivity. Qed.

Lemma runs_db_count {A} (t : table) (rows : list A) :
  runs (db_count t rows) (count rows) [t].
Proof.
  unfold db_count. eapply runs_eq.
  - eapply runs_bind; [apply runs_db_query | apply runs_ret].
  - reflexivity.
Qed.

Lemma runs_lift {A} (a : A) : runs (lift (Ok a)) a [].
Proof. intros tr. unfold lift. rewrite app_nil_r. reflexivity. Qed.

Lemma runs_try_except {A} (body : M A) (handler : exn -> M A) (a : A) (t : trace) :
  runs body a t -> runs (try_except body handler) a t.
Proof. intros Hb tr. unfold try_except. rewrite Hb. reflexivity. Qed.


(** One step of a computation that returns. *)
Ltac mstep :=
  lazymatch goal with
  | |- returns (bind (db_count _ _) _) _ =>
      eapply returns_bind; [apply returns_db_count | cbv beta]
  | |- returns (bind (db_query _ _) _) _ =>
      eapply returns_bind; [apply returns_db_query | cbv beta]
  | |- returns (ret _) _ => apply returns_ret
  | |- returns (try_except _ _) _ => apply returns_try_except
  end.

(** ** Rounding *)



Lemma round_half_even_compat (p q : Q) : (p == q)%Q -> round_half_even p = round_half_even q.
Proof.
  intros E. unfold round_half_even.
  assert (Ef : Qfloor p = Qfloor q) by (rewrite E; reflexivity).
  rewrite Ef.
  assert (Ec : (p - inject_Z (Qfloor q) ?= 1 # 2)%Q = (q - inject_Z (Qfloor q) ?= 1 # 2)%Q)
    by (rewrite E; reflexivity).
  rewrite Ec. reflexivity.
Qed.

Lemma round2_compat (p q : Q) : (p == q)%Q -> round2 p = round2 q.
Proof.
  intros E. unfold round2.
  rewrite (round_half_even_compat (p * 100) (q * 100)); [reflexivity|].
  rewrite E. reflexivity.
Qed.


(** ** File storage *)

Lemma py_truediv_number (v : pyval) :
  is_number v = true ->
  py_truediv v (1024 * 1024) = Ok (number_value v / inject_Z (1024 * 1024))%Q.
Proof. destruct v; simpl; intros H; try discriminate; reflexivity. Qed.

Lemma add_file_mb_runs (acc : Q) (file : File.t) :
  size_numeric file = true ->
  exists q, runs (add_file_mb acc file) q [] /\ (q == acc + file_mb file)%Q.
Proof.
  unfold size_numeric, add_file_mb, file_mb.
  destruct (declared_size file) as [v|]; intros H.
  - eexists. split.
    + rewrite (py_truediv_number v H).
      eapply runs_eq; [eapply runs_bind; [apply runs_lift | apply runs_ret]|].
      reflexivity.
    + reflexivity.
  - exists acc. split; [apply runs_ret | lra].
Qed.

(** The file-storage loop issues no query of its own. *)
Lemma files_storage_runs (l : list File.t) (acc : Q) :
  forallb size_numeric l = true ->
  exists q, runs (files_storage l acc) q [] /\ (q == acc + files_mb l)%Q.
Proof.
  unfold files_storage, files_mb. revert acc.
  induction l as [|file l IH]; simpl; intros acc H.
  - exists acc. split; [apply runs_ret | lra].
  - apply andb_prop in H as [Hf Hl].
    destruct (add_file_mb_runs acc file Hf) as (q1 & R1 & E1).
    destruct (IH q1 Hl) as (q2 & R2 & E2).
    exists q2. split.
    + eapply runs_eq; [eapply runs_bind; [exact R1 | exact R2]|]. reflexivity.
    + rewrite E2, E1. lra.
Qed.

Lemma files_storage_returns (l : list File.t) (acc : Q) :
  forallb size_numeric l = true ->
  exists q, returns (files_storage l acc) q /\ (q == acc + files_mb l)%Q.
Proof.
  intros H. destruct (files_storage_runs l acc H) as (q & R & E).
  exists q. split; [eapply runs_returns, R | exact E].
Qed.

Lemma forallb_filter {A} (p f : A -> bool) (l : list A) :
  forallb p l = true -> forallb p (List.filter f l) = true.
Proof.
  induction l as [|x l IH]; simpl; [reflexivity|].
  intros H. apply andb_prop in H as [Hx Hl].
  destruct (f x); simpl; [rewrite Hx|]; auto.
Qed.


Lemma sizes_numeric_in (db : Store) (lo hi : Z) :
  sizes_numeric db = true -> forallb size_numeric (files_in db lo hi) = true.
Proof. apply forallb_filter. Qed.

Lemma inject_Z_mul_1 (z : Z) : (inject_Z (z * 1) == inject_Z z * 1)%Q.
Proof. rewrite Z.mul_1_r. lra. Qed.

(** ** One user *)



(** ** One group *)




(** ** The stable descending sort *)

Section SortFacts.
Context {A K : Type} (ltb : K -> K -> bool) (key : A -> K).
Hypothesis ltb_asym : forall a b, ltb a b = true -> ltb b a = false.
Hypothesis ltb_negtrans :
  forall a b c, ltb a b = false -> ltb b c = false -> ltb a c = false.

Lemma insert_desc_perm (x : A) (l : list A) :
  Permutation (insert_desc ltb key x l) (x :: l).
Proof.
  induction l as [|y l IH]; simpl; [reflexivity|].
  destruct (ltb (key x) (key y)); [|reflexivity].
  etransitivity; [apply perm_skip, IH | apply perm_swap].
Qed.

Lemma sort_reverse_perm (l : list A) : Permutation (sort_reverse ltb key l) l.
Proof.
  induction l as [|x l IH]; simpl; [reflexivity|].
  etransitivity; [apply insert_desc_perm | apply perm_skip, IH].
Qed.




End SortFacts.




(** The two orders of the rankings. *)








(** ** The listings *)




(** ** The breakdown *)

Lemma percentage_of_returns (c total : Z) :
  returns (percentage_of c total) (percentage c total).
Proof.
  unfold percentage_of, percentage. destruct (0 <? total) eqn:E; [|apply returns_ret].
  unfold py_div.
  assert (N : Qeq_bool (inject_Z total) 0 = false).
  { destruct (Qeq_bool (inject_Z total) 0) eqn:Q0; [|reflexivity].
    apply Qeq_bool_eq in Q0. unfold Qeq in Q0. simpl in Q0. lia. }
  rewrite N. eapply returns_bind; [apply returns_lift | apply returns_ret].
Qed.

Lemma content_type_stats_map (cts : list (string * Z * Q)) :
  returns (content_type_stats cts)
    (map (fun ct =>
            ContentTypeStats.mk (fst (fst ct)) (snd (fst ct))
              (round2 (percentage (snd (fst ct)) (sum_counts cts)))
              (round2 (snd ct)))
         cts).
Proof.
  unfold content_type_stats. apply returns_mapM_all. intros ct.
  eapply returns_bind; [apply percentage_of_returns | apply returns_ret].
Qed.

Lemma content_type_stats_returns (db : Store) (q : Q) :
  (q == files_mb (files db))%Q ->
  returns
    (content_type_stats
       (content_types (count (chats db)) (count (files db)) (count_images (files db))
          (count (knowledge db)) (count (messages db)) q))
    (breakdown db).
Proof.
  intros Eq.
  pose proof (content_type_stats_map
                (content_types (count (chats db)) (count (files db))
                   (count_images (files db)) (count (knowledge db))
                   (count (messages db)) q)) as H.
  unfold content_types in *.
  cbn [map sum_counts fold_left fst snd] in H.
  change (0 + count (chats db)) with (count (chats db)) in H.
  rewrite Z.mul_1_r in H |- *.
  rewrite (round2_compat q (files_mb (files db)) Eq) in H.
  rewrite (round2_compat (q * (3 # 10)) (images_mb (files db))) in H
    by (unfold images_mb; rewrite Eq; reflexivity).
  exact H.
Qed.

Lemma content_types_returns (db : Store) :
  sizes_numeric db = true ->
  returns (get_content_type_statistics db) (breakdown db).
Proof.
  intros Hdb. unfold get_content_type_statistics. mstep. do 5 mstep.
  destruct (files_storage_returns (files db) 0 Hdb) as (q & Rq & Eq).
  eapply returns_bind; [exact Rq|]. cbv beta.
  apply content_type_stats_returns. rewrite Eq. lra.
Qed.


(** ** The time series *)

Lemma in_period_spec (lo hi t : Z) : in_period lo hi t = bool_decide (lo <= t < hi).
Proof.
  unfold in_period. destruct (bool_decide_reflect (lo <= t < hi)); lia.
Qed.

Lemma filter_in_period {A} (created : A -> Z) (lo hi : Z) (l : list A) :
  List.filter (fun x => in_period lo hi (created x)) l = within created lo hi l.
Proof. apply List.filter_ext. intros x. apply in_period_spec. Qed.

Lemma period_stats_returns (strftime_date : Z -> string) (db : Store) (anchor i : Z) :
  sizes_numeric db = true ->
  returns (period_stats strftime_date db anchor i) (bucket_row strftime_date db anchor i).
Proof.
  intros Hdb. unfold period_stats, bucket_row. cbv zeta.
  replace (anchor + i * 24 * 60 * 60) with (bucket_start anchor i)
    by (unfold bucket_start; lia).
  replace (bucket_start anchor i + 24 * 60 * 60) with (bucket_end anchor i)
    by (unfold bucket_start, bucket_end; lia).
  do 5 mstep.
  destruct (files_storage_returns
              (files_in db (bucket_start anchor i) (bucket_end anchor i)) 0
              (sizes_numeric_in db _ _ Hdb)) as (q & Rq & Eq).
  eapply returns_bind; [exact Rq|]. cbv beta.
  erewrite round2_compat; [apply returns_ret|].
  unfold estimate_mb. rewrite Eq, inject_Z_mul_1. lra.
Qed.

Lemma time_series_returns (strftime_date : Z -> string) (db : Store)
    (period : string) (now days : Z) :
  period_days period = Some days ->
  sizes_numeric db = true ->
  returns (get_time_series_statistics strftime_date db period now)
    (map (bucket_row strftime_date db (now - days * 86400)) (py_range days)).
Proof.
  intros Hp Hdb. unfold get_time_series_statistics. mstep.
  eapply returns_bind with (a := days).
  - unfold period_days in Hp.
    destruct (String.eqb period "7d");
      [|destruct (String.eqb period "30d"); [|destruct (String.eqb period "90d")]];
      try discriminate; injection Hp as <-; apply returns_ret.
  - cbv beta zeta. do 5 mstep.
    replace (now - days * 24 * 60 * 60) with (now - days * 86400) by lia.
    apply returns_mapM_all. intros i. apply period_stats_returns, Hdb.
Qed.

Lemma sumZ_app (l1 l2 : list Z) : sumZ (l1 ++ l2) = sumZ l1 + sumZ l2.
Proof. induction l1 as [|x l1 IH]; simpl; lia. Qed.



(** * The claims *)

(** C1 (the code departs from the claim).  For a period keyword that is
    none of [7d], [30d], [90d] the endpoint issues no query on the store, as
    claimed; but the 400 it raises is raised inside the [try] whose
    [except Exception] turns every exception into the generic 500, so the
    caller never sees the input-validation error. *)
Theorem invalid_period_surfaces_as_internal_error
    (strftime_date : Z -> string) (db : Store) (period : string) (now : Z) :
  period_days period = None ->
  run (get_time_series_statistics strftime_date db period now)
  = (Raise (HTTPException 500 "Failed to get time series statistics"), []).
Proof.
  unfold period_days, get_time_series_statistics, run, try_except, bind.
  destruct (String.eqb period "7d"); [discriminate|].
  destruct (String.eqb period "30d"); [discriminate|].
  destruct (String.eqb period "90d"); [discriminate|].
  reflexivity.
Qed.

Lemma invalid_period_60d :
  period_days "60d" = None
  /\ run (get_time_series_statistics sample_strftime_date store_sample "60d" 0)
     = (Raise (HTTPException 500 "Failed to get time series statistics"), []).
Proof.
  split; [reflexivity|].
  apply (invalid_period_surfaces_as_internal_error sample_strftime_date store_sample "60d" 0).
  reflexivity.
Defined.

(** Rows of the user listings. *)




(** C5.  The classifier answers "image" exactly when the metadata is a
    mapping whose media type is one of the four literal strings; metadata
    that is absent, that is not a mapping, or that has no media type, is not
    an image.  The classifier is a total function: no input makes it
    raise. *)
Theorem is_image_exactly_four_media_types (file : File.t) :
  (is_image file = true <->
   exists d s,
     File.meta file = PDict d
     /\ d !! "content_type"%string = Some (PStr s)
     /\ (s = "image/png" \/ s = "image/jpeg" \/ s = "image/gif" \/ s = "image/webp")%string)
  /\ (File.meta file = PNone -> is_image file = false)
  /\ ((forall d, File.meta file <> PDict d) -> is_image file = false)
  /\ (forall d, File.meta file = PDict d -> d !! "content_type"%string = None ->
        is_image file = false).
Proof.
  assert (Hin : forall s,
             existsb (String.eqb s) image_types = true <->
             (s = "image/png" \/ s = "image/jpeg" \/ s = "image/gif" \/ s = "image/webp")%string).
  { intros s. unfold image_types. simpl.
    rewrite !orb_true_iff, !String.eqb_eq. intuition discriminate. }
  unfold is_image. destruct file as [uid created m]. simpl.
  repeat split.
  - destruct m as [| | | | | |d]; simpl; rewrite ?andb_false_r; try discriminate.
    destruct (negb (bool_decide (d = ∅))); simpl; [|discriminate].
    unfold dict_get. destruct (d !! "content_type"%string) as [v|] eqn:E; simpl.
    + destruct v; simpl; try discriminate.
      intros H. apply Hin in H. eauto.
    + discriminate.
  - intros (d & s & -> & E & Hs). simpl.
    assert (Hne : bool_decide (d = ∅) = false).
    { apply bool_decide_eq_false. intros ->. rewrite lookup_empty in E. discriminate. }
    rewrite Hne. simpl. unfold dict_get. rewrite E. simpl. apply Hin, Hs.
  - intros ->. reflexivity.
  - intros H. destruct m; simpl; rewrite ?andb_false_r; try reflexivity.
    destruct (H d eq_refl).
  - intros d -> E. simpl. unfold dict_get. rewrite E. simpl.
    destruct (negb (bool_decide (d = ∅))); reflexivity.
Qed.

(** The match is on the whole string and on its case; a value that is not a
    mapping is no metadata at all. *)
Example classifier_samples :
  map (fun m => is_image (File.mk "u1" 0 m))
    [ PDict {[ "content_type"%string := PStr "image/webp" ]};
      PDict {[ "content_type"%string := PStr "IMAGE/PNG" ]};
      PDict {[ "content_type"%string := PStr "image/svg+xml" ]};
      PDict {[ "content_type"%string := PStr "image/pngx" ]};
      PDict {[ "content_type"%string := PList [PStr "image/png"] ]};
      PDict {[ "size"%string := PInt 10 ]};
      PDict ∅;
      PStr "image/png";
      PList [PStr "image/png"];
      PNone ]
  = [true; false; false; false; false; false; false; false; false; false].
Proof. vm_compute. reflexivity. Qed.




(** With a limit of 1 the listing of [store_heavy_last] is the row of the
    user fetched first, whose estimate is 0 MB; the user fetched second, with
    7 MB, is not listed. *)
Example limit_drops_heavier_user :
  fst (run (get_users_storage_stats store_heavy_last (Some 1)))
  = Ok [UserStorageStats.mk "u2" "Bob" "bob@example.org" 0 2 1 0 0 (0 # 100) 50]
  /\ fst (run (get_users_storage_stats store_heavy_last (Some 2)))
     = Ok [UserStorageStats.mk "u1" "Ann" "ann@example.org" 10 3 0 2 100 (700 # 100) 100;
           UserStorageStats.mk "u2" "Bob" "bob@example.org" 0 2 1 0 0 (0 # 100) 50].
Proof. split; vm_compute; reflexivity. Qed.

Lemma sumZ_middle {A} (f : A -> Z) (pre post : list A) (x : A) :
  sumZ (map f (pre ++ x :: post)) = f x + sumZ (map f (pre ++ post)).
Proof. rewrite !map_app, !sumZ_app. simpl. lia. Qed.

(** The windows of the series *)


Lemma lookup_py_range (n : Z) (i : nat) (z : Z) :
  py_range n !! i = Some z -> z = Z.of_nat i.
Proof.
  unfold py_range. rewrite list_lookup_fmap.
  destruct (seq 0 (Z.to_nat n) !! i) as [k|] eqn:E; simpl; [|discriminate].
  apply lookup_seq in E as [-> _]. intros [= <-]. reflexivity.
Qed.




(** Percentages *)

Lemma count_nonneg {A} (l : list A) : 0 <= count l.
Proof. unfold count. lia. Qed.



(** The store without any entity: every percentage is 0. *)
Example breakdown_of_empty_store :
  fst (run (get_content_type_statistics (mkStore [] [] [] [] [] [])))
  = Ok [ContentTypeStats.mk "chats" 0 (0 # 100) (0 # 100);
        ContentTypeStats.mk "files" 0 (0 # 100) (0 # 100);
        ContentTypeStats.mk "images" 0 (0 # 100) (0 # 100);
        ContentTypeStats.mk "knowledge" 0 (0 # 100) (0 # 100);
        ContentTypeStats.mk "messages" 0 (0 # 100) (0 # 100)].
Proof. vm_compute. reflexivity. Qed.

(** Signs *)


















(** * Further properties of the endpoints *)

(** ** Images among files *)

Lemma count_images_filter (l : list File.t) :
  count_images l = count (List.filter is_image l).
Proof.
  unfold count_images, count.
  assert (H : forall n,
             fold_left (fun n file => if is_image file then n + 1 else n) l n
             = n + Z.of_nat (length (List.filter is_image l))).
  { induction l as [|x l IH]; intros n; simpl; [lia|].
    rewrite IH. destruct (is_image x); simpl length; lia. }
  rewrite H. lia.
Qed.






(** ** Failures *)

Lemma add_file_mb_raises (acc : Q) (file : File.t) (tr : trace) :
  size_numeric file = false ->
  add_file_mb acc file tr = (Raise (TypeError "unsupported operand type(s) for /"), tr).
Proof.
  unfold size_numeric, add_file_mb. destruct (declared_size file) as [v|]; [|discriminate].
  intros H. destruct v; try discriminate H; reflexivity.
Qed.

(** The file-storage loop stops at the first declared size that is not a
    number. *)
Lemma files_storage_raises (l : list File.t) (acc : Q) (tr : trace) :
  forallb size_numeric l = false ->
  files_storage l acc tr = (Raise (TypeError "unsupported operand type(s) for /"), tr).
Proof.
  unfold files_storage. revert acc. induction l as [|x l IH]; intros acc H; [discriminate|].
  simpl in H. simpl. unfold bind. destruct (size_numeric x) eqn:Ex.
  - destruct (add_file_mb_runs acc x Ex) as (q & R & _).
    rewrite R, app_nil_r. apply IH. exact H.
  - rewrite (add_file_mb_raises acc x tr Ex). reflexivity.
Qed.

(** X3.  One declared size that is not a number, on any file of the store, makes
    the overview fail with its 500, after the queries of the global counts
    and before any query about a user or a group. *)
Theorem overview_fails_on_malformed_size (db : Store) (now : Z) :
  sizes_numeric db = false ->
  run (get_dashboard_overview db now)
  = (Raise (HTTPException 500 "Failed to get dashboard overview"), overview_first_queries).
Proof.
  intros Hdb.
  unfold get_dashboard_overview, run, try_except, Users_get_num_users, bind, db_count,
    bind, db_query, ret.
  simpl. rewrite (files_storage_raises (files db) 0 _ Hdb). reflexivity.
Qed.

Lemma overview_fails_on_sample :
  sizes_numeric store_malformed_size = false
  /\ run (get_dashboard_overview store_malformed_size 0)
     = (Raise (HTTPException 500 "Failed to get dashboard overview"),
        overview_first_queries).
Proof.
  split; [reflexivity|].
  apply (overview_fails_on_malformed_size store_malformed_size 0). reflexivity.
Defined.

(** ** The series of any period *)



Lemma length_py_range (n : Z) : length (py_range n) = Z.to_nat n.
Proof. unfold py_range. rewrite length_map, length_seq. reflexivity. Qed.






(** In [store_sample] everything of the first user was created ten seconds
    after the epoch: the first bucket of the week before 604800 holds the 10
    chats, 3 files, 100 messages and 2 knowledge entries, 7 MB in all. *)
Example sample_first_bucket :
  exists rows,
    fst (run (get_time_series_statistics sample_strftime_date store_sample "7d" 604800))
    = Ok rows
    /\ rows !! 0%nat = Some (TimeRangeStats.mk "1970-01-01" 10 5 1 100 (700 # 100))
    /\ rows !! 1%nat = Some (TimeRangeStats.mk "1970-01-01" 0 0 0 0 (0 # 100)).
Proof. eexists. split; [vm_compute; reflexivity|]. split; reflexivity. Qed.

(** ** Rankings and their cuts *)












(** A limit of -1 on the three groups of [store_sample] lists the two most
    active ones. *)
Example negative_limit_drops_last_group :
  fst (run (get_groups_activity_stats store_sample (Some (-1))))
  = Ok [GroupStats.mk "g1" "Staff" 2 10 5 1 2 100 (700 # 100);
        GroupStats.mk "g2" "Admins" 1 10 3 0 2 100 (700 # 100)].
Proof. vm_compute. reflexivity. Qed.



(** ** The overview against the other operations *)






(** ** The range of the percentages *)






(** ** The queries of the group listing *)









(** ** The users' shares of the whole *)








(** ** Loops and periods *)

Lemma runs_mapM_Forall {A B} (f : A -> M B) (g : A -> B) (h : A -> trace) (l : list A) :
  Forall (fun x => runs (f x) (g x) (h x)) l ->
  runs (mapM f l) (map g l) (concat (map h l)).
Proof.
  induction 1 as [|x l Hx _ IH]; simpl; [apply runs_ret|].
  eapply runs_eq.
  - eapply runs_bind; [exact Hx|].
    eapply runs_bind; [exact IH | apply runs_ret].
  - rewrite app_nil_r. reflexivity.
Qed.

Lemma In_py_range (n i : Z) : In i (py_range n) <-> 0 <= i < n.
Proof.
  unfold py_range. rewrite in_map_iff. split.
  - intros (k & <- & Hk). apply in_seq in Hk. lia.
  - intros H. exists (Z.to_nat i). split; [lia|]. apply in_seq. lia.
Qed.

Lemma period_choice (period : string) (days : Z) :
  period_days period = Some days ->
  (if String.eqb period "7d" then ret 7
   else if String.eqb period "30d" then ret 30
   else if String.eqb period "90d" then ret 90
   else raise (HTTPException HTTP_400_BAD_REQUEST "Invalid period. Use 7d, 30d, or 90d"))
  = (ret days : M Z).
Proof.
  unfold period_days.
  destruct (String.eqb period "7d"); [intros [= <-]; reflexivity|].
  destruct (String.eqb period "30d"); [intros [= <-]; reflexivity|].
  destruct (String.eqb period "90d"); [intros [= <-]; reflexivity | discriminate].
Qed.

(** ** A store without content *)

(** X17.  On a store that holds users and groups but no chat, file, knowledge
    entry or message, nothing fails: the series of a valid period has its
    one row per day with every count and the storage at 0, and the breakdown
    has its five rows with every count, percentage and size at 0. *)
Theorem store_without_content_gives_zero_rows (strftime_date : Z -> string)
    (us : list User.t) (gs : list Group.t) (period : string) (days now : Z) :
  period_days period = Some days ->
  let db := mkStore us gs [] [] [] [] in
  returns (get_time_series_statistics strftime_date db period now)
    (map (fun i =>
            TimeRangeStats.mk (strftime_date (now - days * 86400 + i * 86400))
              0 0 0 0 (0 # 100))
       (py_range days))
  /\ returns (get_content_type_statistics db)
       [ ContentTypeStats.mk "chats" 0 (0 # 100) (0 # 100);
         ContentTypeStats.mk "files" 0 (0 # 100) (0 # 100);
         ContentTypeStats.mk "images" 0 (0 # 100) (0 # 100);
         ContentTypeStats.mk "knowledge" 0 (0 # 100) (0 # 100);
         ContentTypeStats.mk "messages" 0 (0 # 100) (0 # 100) ].
Proof.
  intros Hp db. split.
  - pose proof (time_series_returns strftime_date db period now days Hp eq_refl) as R.
    erewrite List.map_ext; [exact R|]. intros i. reflexivity.
  - apply (content_types_returns db). reflexivity.
Qed.

Lemma store_without_content_on_sample :
  period_days "30d" = Some 30
  /\ let db := mkStore (users store_sample) (groups store_sample) [] [] [] [] in
     returns (get_time_series_statistics sample_strftime_date db "30d" 2592000)
       (map (fun i =>
               TimeRangeStats.mk (sample_strftime_date (2592000 - 30 * 86400 + i * 86400))
                 0 0 0 0 (0 # 100))
          (py_range 30))
     /\ returns (get_content_type_statistics db)
          [ ContentTypeStats.mk "chats" 0 (0 # 100) (0 # 100);
            ContentTypeStats.mk "files" 0 (0 # 100) (0 # 100);
            ContentTypeStats.mk "images" 0 (0 # 100) (0 # 100);
            ContentTypeStats.mk "knowledge" 0 (0 # 100) (0 # 100);
            ContentTypeStats.mk "messages" 0 (0 # 100) (0 # 100) ].
Proof.
  split; [reflexivity|].
  apply (store_without_content_gives_zero_rows sample_strftime_date
           (users store_sample) (groups store_sample) "30d" 30 2592000).
  reflexivity.
Defined.


(** * The figures in the arithmetic of the doubles *)

(** ** The arithmetic

    The values CPython computes for the same expressions, written as the
    hexadecimal literals of [float.hex]: decimal literals, [float()] of an
    int, [int / int] with its overflow half an ulp above the largest
    double, [round(x, 2)] at and around its ties, and the sums and products
    behind the figures 0.23, 0.07 and 14.37 of the examples further down. *)
Example arithmetic_of_the_doubles :
  Float64.float_literal (1 # 10) = (0x1.999999999999ap-4)%float
  /\ Float64.float_literal (1 # 100) = (0x1.47ae147ae147bp-7)%float
  /\ Float64.float_literal (3 # 10) = (0x1.3333333333333p-2)%float
  /\ Float64.float_literal (107 # 40) = (0x1.5666666666666p+1)%float
  /\ Float64.float_literal (201 # 200) = (0x1.0147ae147ae14p+0)%float
  /\ Float64.float_literal (987654313 # 8) = (0x1.d6f3454800000p+26)%float
  /\ Float64.float_literal (1 # 10 ^ 320) = (0x0.00000000007e8p-1022)%float
  /\ Float64.float_literal (10 ^ 999 # 1) = infinity
  /\ Float64.of_int (2 ^ 53 + 1) = (0x1.0000000000000p+53)%float
  /\ Float64.of_int (2 ^ 53 + 3) = (0x1.0000000000002p+53)%float
  /\ Float64.of_int (10 ^ 23) = (0x1.52d02c7e14af6p+76)%float
  /\ Float64.of_int (- 10 ^ 23) = (-0x1.52d02c7e14af6p+76)%float
  /\ Float64.of_int (3 ^ 200) = (0x1.fd5863c3eb047p+316)%float
  /\ Float64.int_truediv (23) 160 = Ok (0x1.2666666666666p-3)%float
  /\ Float64.int_truediv (1) 3 = Ok (0x1.5555555555555p-2)%float
  /\ Float64.int_truediv (131072) 1048576 = Ok (0x1.0000000000000p-3)%float
  /\ Float64.int_truediv (10 ^ 310) 1048576 = Ok (0x1.bd03c8140697ap+1009)%float
  /\ Float64.int_truediv (- 7) 1048576 = Ok (-0x1.c000000000000p-18)%float
  /\ Float64.int_truediv (10 ^ 400) 1048576
     = Raise (OverflowError "integer division result too large for a float")
  /\ Float64.int_truediv (Float64.overflow_threshold * 1048576) 1048576
     = Raise (OverflowError "integer division result too large for a float")
  /\ Float64.int_truediv (Float64.overflow_threshold * 1048576 - 1) 1048576
     = Ok (0x1.fffffffffffffp+1023)%float
  /\ Float64.round2 (Float64.float_literal (1 # 8)) = (0x1.eb851eb851eb8p-4)%float
  /\ Float64.round2 (Float64.float_literal (3 # 8)) = (0x1.851eb851eb852p-2)%float
  /\ Float64.round2 (Float64.float_literal (107 # 40)) = (0x1.55c28f5c28f5cp+1)%float
  /\ Float64.round2 (Float64.float_literal (201 # 200)) = (0x1.0000000000000p+0)%float
  /\ Float64.round2 (Float64.float_literal (9 # 40)) = (0x1.d70a3d70a3d71p-3)%float
  /\ Float64.round2 (Float64.float_literal (47 # 200)) = (0x1.d70a3d70a3d71p-3)%float
  /\ Float64.round2 (Float64.float_literal (115 # 8)) = (0x1.cc28f5c28f5c3p+3)%float
  /\ Float64.round2 (Float64.float_literal (- 1 # 8)) = (-0x1.eb851eb851eb8p-4)%float
  /\ Float64.round2 (Float64.float_literal (- 1 # 1000)) = neg_zero
  /\ Float64.round2 (Float64.float_literal (10 ^ 22 # 1)) = (0x1.0f0cf064dd592p+73)%float
  /\ Float64.round2 (Float64.float_literal (2251799813685248 # 25)) = (0x1.47ae147ae147bp+46)%float
  /\ Float64.round2 (Float64.float_literal (1 # 200)) = (0x1.47ae147ae147bp-7)%float
  /\ (Float64.float_literal (1 # 10) + Float64.float_literal (2 # 10))%float
     = (0x1.3333333333334p-2)%float
  /\ (0.125 + Float64.of_int 1 * Float64.float_literal (1 # 10))%float
     = (0x1.ccccccccccccdp-3)%float
  /\ (0.25 * Float64.float_literal (3 # 10))%float = (0x1.3333333333333p-4)%float
  /\ (Float64.quotient 23 160 * Float64.of_int 100)%float = (0x1.cbfffffffffffp+3)%float.
Proof. repeat split; vm_compute; reflexivity. Qed.

(** ** Reading the store *)

Lemma filter_owned {A} (owner : A -> string) (uid : string) (l : list A) :
  List.filter (fun x => String.eqb (owner x) uid) l = owned owner uid l.
Proof.
  apply List.filter_ext. intros x.
  destruct (String.eqb_spec (owner x) uid) as [E|N]; symmetry.
  - apply bool_decide_eq_true_2, E.
  - apply bool_decide_eq_false_2, N.
Qed.

Lemma chats_by_user_owned (db : Store) (uid : string) :
  chats_by_user db uid = owned Chat.user_id uid (chats db).
Proof. apply filter_owned. Qed.

Lemma files_by_user_owned (db : Store) (uid : string) :
  files_by_user db uid = owned File.user_id uid (files db).
Proof. apply filter_owned. Qed.

Lemma knowledge_by_user_owned (db : Store) (uid : string) :
  knowledge_by_user db uid = owned Knowledge.user_id uid (knowledge db).
Proof. apply filter_owned. Qed.

Lemma messages_by_user_owned (db : Store) (uid : string) :
  messages_by_user db uid = owned Message.user_id uid (messages db).
Proof. apply filter_owned. Qed.

Lemma members_listed (g : Group.t) : members g = listed_ids g.
Proof. unfold members, listed_ids. destruct (Group.user_ids g); reflexivity. Qed.

Lemma count_images_images (l : list File.t) : count_images l = count (images l).
Proof. apply count_images_filter. Qed.

(** The guard of the storage loops lets through exactly the metadata
    mappings that hold the key [size]. *)
Lemma declared_size_in_meta (file : File.t) :
  declared_size file = Float64.size_in_meta file.
Proof.
  unfold declared_size, Float64.size_in_meta.
  destruct (File.meta file) as [| b | z | q | s | l | d]; simpl; try reflexivity.
  - destruct b; reflexivity.
  - destruct (negb (z =? 0)); reflexivity.
  - destruct (negb (Qeq_bool q 0)); reflexivity.
  - destruct (negb (String.eqb s EmptyString)); reflexivity.
  - destruct l; reflexivity.
  - destruct (decide (d = ∅)) as [->|N].
    + rewrite bool_decide_eq_true_2 by reflexivity. simpl. symmetry. apply lookup_empty.
    + rewrite bool_decide_eq_false_2 by assumption. reflexivity.
Qed.

(** ** File storage *)

Lemma overflow_threshold_gt_1 : 1 < Float64.overflow_threshold.
Proof. vm_compute. reflexivity. Qed.

Lemma int_truediv_fits (a b : Z) :
  0 < b -> Z.abs a < Float64.overflow_threshold * b ->
  Float64.int_truediv a b = Ok (Float64.quotient a b).
Proof.
  intros Hb Ha. unfold Float64.int_truediv.
  destruct (Z.eqb_spec b 0) as [E|_]; [lia|].
  rewrite (Z.abs_eq b) by lia.
  destruct (Z.leb_spec (Float64.overflow_threshold * b) (Z.abs a)) as [L|_]; [lia|].
  reflexivity.
Qed.

Lemma int_truediv_overflows (a b : Z) :
  0 < b -> Float64.overflow_threshold * b <= Z.abs a ->
  Float64.int_truediv a b
  = Raise (OverflowError "integer division result too large for a float").
Proof.
  intros Hb Ha. unfold Float64.int_truediv.
  destruct (Z.eqb_spec b 0) as [E|_]; [lia|].
  rewrite (Z.abs_eq b) by lia.
  destruct (Z.leb_spec (Float64.overflow_threshold * b) (Z.abs a)) as [_|L]; [|lia].
  reflexivity.
Qed.

Lemma py_truediv_size_mb (v : pyval) :
  match Float64.size_mb v with
  | Some x => Float64.py_truediv v (1024 * 1024) = Ok x
  | None => exists e, Float64.py_truediv v (1024 * 1024) = Raise e
  end.
Proof.
  change (1024 * 1024) with 1048576.
  destruct v as [| b | z | q | s | l | d]; cbn [Float64.size_mb Float64.py_truediv]; eauto.
  - apply int_truediv_fits; [lia|]. destruct b; vm_compute; reflexivity.
  - destruct (Z.ltb_spec (Z.abs z) (Float64.overflow_threshold * 1048576)) as [L|G].
    + apply int_truediv_fits; [lia | exact L].
    + eexists. apply int_truediv_overflows; [lia | exact G].
Qed.

Lemma add_up_app (acc : float) (xs ys : list float) :
  Float64.add_up acc (xs ++ ys) = Float64.add_up (Float64.add_up acc xs) ys.
Proof. apply fold_left_app. Qed.

Lemma f64_add_file_mb_runs (acc : float) (file : File.t) :
  Float64.size_fits file = true ->
  runs (Float64.add_file_mb acc file) (Float64.add_up acc (Float64.file_mb file)) [].
Proof.
  unfold Float64.size_fits, Float64.add_file_mb, Float64.file_mb.
  rewrite declared_size_in_meta.
  destruct (Float64.size_in_meta file) as [v|]; [|intros _; apply runs_ret].
  pose proof (py_truediv_size_mb v) as H.
  destruct (Float64.size_mb v) as [x|]; [|discriminate]. intros _.
  rewrite H. eapply runs_eq; [eapply runs_bind; [apply runs_lift | apply runs_ret]|].
  reflexivity.
Qed.

Lemma f64_add_file_mb_raises (acc : float) (file : File.t) (tr : trace) :
  Float64.size_fits file = false ->
  exists e, Float64.add_file_mb acc file tr = (Raise e, tr).
Proof.
  unfold Float64.size_fits, Float64.add_file_mb.
  rewrite declared_size_in_meta.
  destruct (Float64.size_in_meta file) as [v|]; [|discriminate].
  pose proof (py_truediv_size_mb v) as H.
  destruct (Float64.size_mb v) as [x|]; [discriminate|]. intros _.
  destruct H as [e H]. exists e. unfold bind, lift. rewrite H. reflexivity.
Qed.

(** The file-storage loop adds the declared sizes in MB, one by one, to
    what it starts from, and issues no query of its own. *)
Lemma f64_files_storage_runs (l : list File.t) (acc : float) :
  Float64.sizes_fit l = true ->
  runs (Float64.files_storage l acc) (Float64.add_up acc (Float64.megabytes l)) [].
Proof.
  unfold Float64.files_storage, Float64.megabytes. revert acc.
  induction l as [|file l IH]; intros acc H; [apply runs_ret|].
  simpl in H. apply andb_prop in H as [Hf Hl].
  cbn [foldM flat_map]. rewrite add_up_app.
  eapply runs_eq; [eapply runs_bind; [apply f64_add_file_mb_runs, Hf | apply IH, Hl]|].
  reflexivity.
Qed.

(** It stops at the first declared size that has no MB. *)
Lemma f64_files_storage_raises (l : list File.t) (acc : float) (tr : trace) :
  Float64.sizes_fit l = false ->
  exists e, Float64.files_storage l acc tr = (Raise e, tr).
Proof.
  unfold Float64.files_storage. revert acc.
  induction l as [|file l IH]; intros acc H; [discriminate|].
  simpl in H. cbn [foldM]. unfold bind.
  destruct (Float64.size_fits file) eqn:Hf.
  - rewrite (f64_add_file_mb_runs acc file Hf), app_nil_r. apply IH, H.
  - destruct (f64_add_file_mb_raises acc file tr Hf) as [e ->]. eauto.
Qed.

Lemma sizes_fit_filter (p : File.t -> bool) (l : list File.t) :
  Float64.sizes_fit l = true -> Float64.sizes_fit (List.filter p l) = true.
Proof. apply forallb_filter. Qed.

(** ** One user *)

Lemma f64_user_storage_stats_runs (db : Store) (u : User.t) :
  Float64.sizes_fit (owned File.user_id (User.id u) (files db)) = true ->
  runs (Float64.user_storage_stats db u) (Float64.user_row db u) user_queries.
Proof.
  intros H. unfold Float64.user_storage_stats, Float64.user_row.
  unfold Float64.user_mb, Float64.estimate_mb, Float64.files_mb.
  rewrite chats_by_user_owned, files_by_user_owned, knowledge_by_user_owned,
    messages_by_user_owned.
  eapply runs_eq.
  - eapply runs_bind; [apply runs_db_count|]. cbv beta.
    eapply runs_bind; [apply runs_db_count|]. cbv beta.
    eapply runs_bind; [apply runs_db_query|]. cbv beta zeta.
    eapply runs_bind; [apply runs_db_count|]. cbv beta.
    eapply runs_bind; [apply runs_db_count|]. cbv beta.
    eapply runs_bind; [apply f64_files_storage_runs, H|]. cbv beta zeta.
    rewrite count_images_images. apply runs_ret.
  - reflexivity.
Qed.

Lemma f64_user_storage_stats_raises (db : Store) (u : User.t) (tr : trace) :
  Float64.sizes_fit (owned File.user_id (User.id u) (files db)) = false ->
  exists e tr', Float64.user_storage_stats db u tr = (Raise e, tr').
Proof.
  intros H. unfold Float64.user_storage_stats.
  rewrite files_by_user_owned.
  unfold bind, db_count, bind, db_query, ret.
  destruct (f64_files_storage_raises _ zero
              (((((tr ++ [TChat]) ++ [TFile]) ++ [TFile]) ++ [TKnowledge]) ++ [TMessage]) H)
    as [e ->].
  eauto.
Qed.

(** ** One group *)

Lemma f64_group_member_step_runs (db : Store) (acc : Float64.group_acc) (uid : string) :
  Float64.sizes_fit (owned File.user_id uid (files db)) = true ->
  runs (Float64.group_member_step db acc uid) (Float64.group_after db acc [uid]) user_queries.
Proof.
  intros H. unfold Float64.group_member_step, Float64.group_after, Float64.member_add.
  rewrite chats_by_user_owned, files_by_user_owned, knowledge_by_user_owned,
    messages_by_user_owned.
  cbn [map sumZ fold_right fold_left]. rewrite !Z.add_0_r.
  eapply runs_eq.
  - eapply runs_bind; [apply runs_db_count|]. cbv beta.
    eapply runs_bind; [apply runs_db_count|]. cbv beta.
    eapply runs_bind; [apply runs_db_query|]. cbv beta zeta.
    eapply runs_bind; [apply runs_db_count|]. cbv beta.
    eapply runs_bind; [apply runs_db_count|]. cbv beta.
    eapply runs_bind; [apply f64_files_storage_runs, H|]. cbv beta zeta.
    rewrite count_images_images. apply runs_ret.
  - reflexivity.
Qed.

Lemma f64_group_member_step_raises (db : Store) (acc : Float64.group_acc) (uid : string)
    (tr : trace) :
  Float64.sizes_fit (owned File.user_id uid (files db)) = false ->
  exists e tr', Float64.group_member_step db acc uid tr = (Raise e, tr').
Proof.
  intros H. unfold Float64.group_member_step.
  rewrite files_by_user_owned.
  unfold bind, db_count, bind, db_query, ret.
  destruct (f64_files_storage_raises _ (Float64.group_storage_mb acc)
              (((((tr ++ [TChat]) ++ [TFile]) ++ [TFile]) ++ [TKnowledge]) ++ [TMessage]) H)
    as [e ->].
  eauto.
Qed.

Lemma f64_group_after_cons (db : Store) (acc : Float64.group_acc) (uid : string)
    (ids : list string) :
  Float64.group_after db (Float64.group_after db acc [uid]) ids
  = Float64.group_after db acc (uid :: ids).
Proof.
  unfold Float64.group_after. cbn [map sumZ fold_right fold_left Float64.group_chats
    Float64.group_files Float64.group_images Float64.group_knowledge
    Float64.group_messages Float64.group_storage_mb].
  unfold sumZ. f_equal; lia.
Qed.

(** Every member of the group has files whose declared sizes have their
    MB. *)
Lemma f64_group_fold_runs (db : Store) (ids : list string) (acc : Float64.group_acc) :
  forallb (fun uid => Float64.sizes_fit (owned File.user_id uid (files db))) ids = true ->
  runs (foldM (Float64.group_member_step db) ids acc) (Float64.group_after db acc ids)
    (concat (map (fun _ => user_queries) ids)).
Proof.
  revert acc. induction ids as [|uid ids IH]; intros acc H.
  - destruct acc. unfold Float64.group_after. cbn. rewrite !Z.add_0_r. apply runs_ret.
  - simpl in H. apply andb_prop in H as [Hu Hids].
    rewrite <- f64_group_after_cons. cbn [foldM].
    eapply runs_eq;
      [eapply runs_bind; [apply f64_group_member_step_runs, Hu | apply IH, Hids]|].
    reflexivity.
Qed.

Lemma f64_group_fold_raises (db : Store) (ids : list string) (acc : Float64.group_acc)
    (tr : trace) :
  forallb (fun uid => Float64.sizes_fit (owned File.user_id uid (files db))) ids = false ->
  exists e tr', foldM (Float64.group_member_step db) ids acc tr = (Raise e, tr').
Proof.
  revert acc tr. induction ids as [|uid ids IH]; intros acc tr H; [discriminate|].
  simpl in H. cbn [foldM]. unfold bind.
  destruct (Float64.sizes_fit (owned File.user_id uid (files db))) eqn:Hu.
  - rewrite (f64_group_member_step_runs db acc uid Hu). apply IH, H.
  - destruct (f64_group_member_step_raises db acc uid tr Hu) as (e & tr' & ->). eauto.
Qed.

(** The declared sizes of the files of every id a group lists have their
    MB. *)
Lemma f64_group_stats_of_runs (db : Store) (g : Group.t) :
  forallb (fun uid => Float64.sizes_fit (owned File.user_id uid (files db))) (listed_ids g)
  = true ->
  runs (Float64.group_stats_of db g) (Float64.group_row db g)
    (concat (map (fun _ => user_queries) (listed_ids g))).
Proof.
  intros H. unfold Float64.group_stats_of, Float64.group_row, Float64.group_mb.
  rewrite members_listed.
  eapply runs_eq.
  - eapply runs_bind; [apply f64_group_fold_runs, H|]. cbv beta zeta.
    unfold Float64.group_after.
    cbn [Float64.group_chats Float64.group_files Float64.group_images
         Float64.group_knowledge Float64.group_messages Float64.group_storage_mb].
    rewrite !Z.add_0_l. apply runs_ret.
  - rewrite app_nil_r. reflexivity.
Qed.

Lemma f64_group_stats_of_raises (db : Store) (g : Group.t) (tr : trace) :
  forallb (fun uid => Float64.sizes_fit (owned File.user_id uid (files db))) (listed_ids g)
  = false ->
  exists e tr', Float64.group_stats_of db g tr = (Raise e, tr').
Proof.
  intros H. unfold Float64.group_stats_of. rewrite members_listed. unfold bind.
  destruct (f64_group_fold_raises db (listed_ids g) (Float64.mk_group_acc 0 0 0 0 0 zero) tr H)
    as (e & tr' & ->).
  eauto.
Qed.

(** ** The breakdown *)

Lemma f64_percentage_of_runs (c total : Z) :
  0 <= c <= total ->
  runs (Float64.percentage_of c total) (Float64.share c total) [].
Proof.
  intros Hc. unfold Float64.percentage_of, Float64.share.
  destruct (Z.ltb_spec 0 total) as [Ht|_]; [|apply runs_ret].
  rewrite int_truediv_fits; [| exact Ht |].
  - eapply runs_eq; [eapply runs_bind; [apply runs_lift | apply runs_ret]|]. reflexivity.
  - pose proof overflow_threshold_gt_1. rewrite Z.abs_eq by lia. nia.
Qed.

Lemma runs_value {A} (m : M A) (v v' : A) (t : trace) : runs m v t -> v = v' -> runs m v' t.
Proof. intros H <-. exact H. Qed.

Lemma f64_content_type_stats_runs (db : Store) :
  runs
    (Float64.content_type_stats
       (Float64.content_types (count (chats db)) (count (files db))
          (count (images (files db))) (count (knowledge db)) (count (messages db))
          (Float64.files_mb (files db))))
    (Float64.breakdown db) [].
Proof.
  unfold Float64.content_type_stats, Float64.content_types, Float64.breakdown.
  pose proof (count_nonneg (chats db)) as Hc.
  pose proof (count_nonneg (files db)) as Hf.
  pose proof (count_nonneg (images (files db))) as Hi.
  pose proof (count_nonneg (knowledge db)) as Hk.
  pose proof (count_nonneg (messages db)) as Hm.
  cbn [Float64.sum_counts fold_left fst snd]. rewrite Z.add_0_l.
  cbv zeta.
  set (total := count (chats db) + count (files db) + count (images (files db))
                + count (knowledge db) + count (messages db)).
  eapply runs_value; [eapply runs_eq|].
  - apply (runs_mapM_Forall _
             (fun ct => Float64.ContentTypeStats.mk (fst (fst ct)) (snd (fst ct))
                          (Float64.round2 (Float64.share (snd (fst ct)) total))
                          (Float64.round2 (snd ct)))
             (fun _ => [])).
    repeat constructor; cbn [fst snd];
      (eapply runs_eq;
       [eapply runs_bind; [apply f64_percentage_of_runs; unfold total; lia | apply runs_ret]
       | reflexivity]).
  - reflexivity.
  - reflexivity.
Qed.

(** ** The endpoints *)

(** A loop over rows stops at the first row whose turn raises. *)
Lemma mapM_stops {A B} (f : A -> M B) (ok : A -> bool) (g : A -> B) (h : A -> trace)
    (l : list A) :
  (forall x, ok x = true -> runs (f x) (g x) (h x)) ->
  (forall x tr, ok x = false -> exists e tr', f x tr = (Raise e, tr')) ->
  forallb ok l = false ->
  forall tr, exists e tr', mapM f l tr = (Raise e, tr').
Proof.
  intros Hok Hbad. induction l as [|x l IH]; intros H tr; [discriminate|].
  simpl in H. simpl. unfold bind at 1. destruct (ok x) eqn:Ex.
  - rewrite (Hok x Ex). unfold bind.
    destruct (IH H (tr ++ h x)) as (e & tr' & ->). eauto.
  - destruct (Hbad x tr Ex) as (e & tr' & ->). eauto.
Qed.

Lemma f64_content_types_runs (db : Store) :
  Float64.sizes_fit (files db) = true ->
  runs (Float64.get_content_type_statistics db) (Float64.breakdown db) content_type_queries.
Proof.
  intros Hdb. unfold Float64.get_content_type_statistics. apply runs_try_except.
  eapply runs_eq.
  - do 4 (eapply runs_bind; [apply runs_db_count|]; cbv beta).
    eapply runs_bind; [apply runs_db_query|]. cbv beta zeta.
    eapply runs_bind; [apply f64_files_storage_runs, Hdb|]. cbv beta.
    rewrite count_images_images. apply f64_content_type_stats_runs.
  - reflexivity.
Qed.

Lemma f64_content_types_raises (db : Store) :
  Float64.sizes_fit (files db) = false ->
  run (Float64.get_content_type_statistics db)
  = (Raise (HTTPException 500 "Failed to get content type statistics"),
     content_type_queries).
Proof.
  intros Hdb.
  unfold Float64.get_content_type_statistics, run, try_except, bind, db_count, bind,
    db_query, ret.
  destruct (f64_files_storage_raises (files db) zero
              ((((([] ++ [TChat]) ++ [TFile]) ++ [TKnowledge]) ++ [TMessage]) ++ [TFile]) Hdb)
    as [e ->].
  reflexivity.
Qed.

(** The declared sizes of the files of the user have their MB. *)
Lemma f64_users_listing_runs (db : Store) (limit : option Z) :
  forallb (fun u => Float64.sizes_fit (owned File.user_id (User.id u) (files db)))
    (fetched_users db limit) = true ->
  runs (Float64.get_users_storage_stats db limit)
    (sort_reverse PrimFloat.ltb Float64.UserStorageStats.storage_usage_mb
       (map (Float64.user_row db) (fetched_users db limit)))
    (TUser :: concat (map (fun _ => user_queries) (fetched_users db limit))).
Proof.
  intros H. unfold Float64.get_users_storage_stats. apply runs_try_except.
  eapply runs_eq.
  - eapply runs_bind; [apply runs_db_query|]. cbv beta.
    eapply runs_bind; [|apply runs_ret].
    apply (runs_mapM_Forall _ (Float64.user_row db) (fun _ => user_queries)).
    apply List.Forall_forall. intros u Hu.
    apply f64_user_storage_stats_runs.
    rewrite forallb_forall in H. apply H, Hu.
  - simpl. rewrite app_nil_r. reflexivity.
Qed.

Lemma f64_users_listing_raises (db : Store) (limit : option Z) :
  forallb (fun u => Float64.sizes_fit (owned File.user_id (User.id u) (files db)))
    (fetched_users db limit) = false ->
  fst (run (Float64.get_users_storage_stats db limit))
  = Raise (HTTPException 500 "Failed to get users storage statistics").
Proof.
  intros H.
  unfold Float64.get_users_storage_stats, run, try_except, Users_get_users, db_query.
  unfold bind at 1. fold (fetched_users db limit). unfold bind at 1.
  destruct (mapM_stops (Float64.user_storage_stats db)
              (fun u => Float64.sizes_fit (owned File.user_id (User.id u) (files db)))
              (Float64.user_row db) (fun _ => user_queries) (fetched_users db limit)
              (f64_user_storage_stats_runs db)
              (fun u tr Hu => f64_user_storage_stats_raises db u tr Hu) H ([] ++ [TUser]))
    as (e & tr' & ->).
  reflexivity.
Qed.


Lemma fits_every_id (db : Store) (l : list string) :
  Float64.sizes_fit (files db) = true ->
  forallb (fun uid => Float64.sizes_fit (owned File.user_id uid (files db))) l = true.
Proof.
  intros H. apply forallb_forall. intros u _. apply sizes_fit_filter, H.
Qed.

(** The cut of the group listing. *)
Lemma group_cut_firstn {A} (limit : option Z) (l : list A) :
  match limit with
  | Some n => if n =? 0 then l else py_slice_to n l
  | None => l
  end
  = firstn (rows_kept limit (length l)) l.
Proof.
  unfold rows_kept, py_slice_to.
  destruct limit as [[|k|k]|]; simpl.
  - symmetry. apply firstn_all.
  - rewrite Nat.min_comm. destruct (Nat.min_spec (length l) (Pos.to_nat k)) as [[L ->]|[L ->]].
    + rewrite firstn_all. apply firstn_all2. lia.
    + reflexivity.
  - reflexivity.
  - symmetry. apply firstn_all.
Qed.

(** The declared sizes of the files of the ids of every group have their
    MB. *)
Lemma f64_groups_listing_runs (db : Store) (limit : option Z) :
  forallb (fun g => forallb (fun uid => Float64.sizes_fit (owned File.user_id uid (files db)))
                      (listed_ids g)) (groups db) = true ->
  let ranking :=
    sort_reverse Z.ltb Float64.group_activity (map (Float64.group_row db) (groups db)) in
  runs (Float64.get_groups_activity_stats db limit)
    (firstn (rows_kept limit (length (groups db))) ranking)
    (TGroup :: concat (map (fun g => concat (map (fun _ => user_queries) (listed_ids g)))
                         (groups db))).
Proof.
  intros H ranking. unfold Float64.get_groups_activity_stats. apply runs_try_except.
  eapply runs_value; [eapply runs_eq|].
  - eapply runs_bind; [apply runs_db_query|]. cbv beta.
    eapply runs_bind; [|apply runs_ret].
    apply (runs_mapM_Forall _ (Float64.group_row db)
             (fun g => concat (map (fun _ => user_queries) (listed_ids g)))).
    apply List.Forall_forall. intros g Hg.
    apply f64_group_stats_of_runs.
    rewrite forallb_forall in H. apply H, Hg.
  - simpl. rewrite app_nil_r. reflexivity.
  - cbv zeta. fold ranking. rewrite group_cut_firstn. f_equal. f_equal.
    unfold ranking.
    rewrite (Permutation_length (sort_reverse_perm _ _ _)). apply length_map.
Qed.

Lemma f64_groups_listing_raises (db : Store) (limit : option Z) :
  forallb (fun g => forallb (fun uid => Float64.sizes_fit (owned File.user_id uid (files db)))
                      (listed_ids g)) (groups db) = false ->
  fst (run (Float64.get_groups_activity_stats db limit))
  = Raise (HTTPException 500 "Failed to get groups activity statistics").
Proof.
  intros H.
  unfold Float64.get_groups_activity_stats, run, try_except, Groups_get_groups, db_query.
  unfold bind at 1. unfold bind at 1.
  destruct (mapM_stops (Float64.group_stats_of db)
              (fun g => forallb (fun uid => Float64.sizes_fit (owned File.user_id uid (files db)))
                          (listed_ids g))
              (Float64.group_row db)
              (fun g => concat (map (fun _ => user_queries) (listed_ids g)))
              (groups db)
              (f64_group_stats_of_runs db)
              (fun g tr Hg => f64_group_stats_of_raises db g tr Hg) H ([] ++ [TGroup]))
    as (e & tr' & ->).
  reflexivity.
Qed.

Lemma f64_overview_returns (db : Store) (now : Z) :
  Float64.sizes_fit (files db) = true ->
  exists o,
    returns (Float64.get_dashboard_overview db now) o
    /\ Float64.DashboardOverview.total_storage_mb o
       = Float64.round2
           (Float64.files_mb (files db) + Float64.of_int (count (knowledge db) * 1)
            + Float64.of_int (count (chats db)) * Float64.float_literal (1 # 10)
            + Float64.of_int (count (messages db)) * Float64.float_literal (1 # 100))%float
    /\ Float64.DashboardOverview.content_type_breakdown o = Float64.breakdown db
    /\ Float64.DashboardOverview.top_users_by_storage o
       = py_slice_to 10
           (sort_reverse PrimFloat.ltb Float64.UserStorageStats.storage_usage_mb
              (map (Float64.user_row db) (users db)))
    /\ Float64.DashboardOverview.top_groups_by_activity o
       = py_slice_to 10
           (sort_reverse Z.ltb Float64.group_activity
              (map (Float64.group_row db) (groups db))).
Proof.
  intros Hdb. eexists. split.
  - unfold Float64.get_dashboard_overview. apply returns_try_except.
    unfold Users_get_num_users.
    eapply returns_bind;
      [eapply returns_bind; [apply returns_db_query | apply returns_ret]|]. cbv beta zeta.
    do 6 mstep. mstep. cbv zeta.
    eapply returns_bind; [eapply runs_returns, f64_files_storage_runs, Hdb|]. cbv beta.
    rewrite count_images_images.
    eapply returns_bind; [eapply runs_returns, f64_content_type_stats_runs|]. cbv beta.
    unfold Users_get_users. mstep.
    eapply returns_bind.
    { apply (returns_mapM _ (Float64.user_row db)). apply List.Forall_forall. intros u _.
      eapply runs_returns, f64_user_storage_stats_runs, sizes_fit_filter, Hdb. }
    cbv beta. unfold Groups_get_groups. mstep.
    eapply returns_bind.
    { apply (returns_mapM _ (Float64.group_row db)). apply List.Forall_forall. intros g _.
      eapply runs_returns, f64_group_stats_of_runs, fits_every_id, Hdb. }
    cbv beta. apply returns_ret.
  - cbn [Float64.DashboardOverview.total_storage_mb
         Float64.DashboardOverview.content_type_breakdown
         Float64.DashboardOverview.top_users_by_storage
         Float64.DashboardOverview.top_groups_by_activity].
    repeat split; reflexivity.
Qed.

(** ** The series *)

Lemma f64_period_stats_runs (strftime_date : Z -> string) (db : Store) (anchor i : Z) :
  Float64.sizes_fit
    (within File.created_at (anchor + i * 86400) (anchor + (i + 1) * 86400) (files db))
  = true ->
  runs (Float64.period_stats strftime_date db anchor i)
    (Float64.bucket_row strftime_date db anchor i) bucket_queries.
Proof.
  intros H. unfold Float64.period_stats, Float64.bucket_row. cbv zeta.
  replace (anchor + i * 24 * 60 * 60) with (anchor + i * 86400) by lia.
  replace (anchor + i * 86400 + 24 * 60 * 60) with (anchor + (i + 1) * 86400) by lia.
  unfold chats_in, files_in, knowledge_in, messages_in.
  rewrite !filter_in_period.
  unfold Float64.estimate_mb, Float64.files_mb.
  eapply runs_eq.
  - eapply runs_bind; [apply runs_db_count|]. cbv beta.
    eapply runs_bind; [apply runs_db_count|]. cbv beta.
    eapply runs_bind; [apply runs_db_query|]. cbv beta.
    eapply runs_bind; [apply runs_db_count|]. cbv beta.
    eapply runs_bind; [apply runs_db_count|]. cbv beta.
    eapply runs_bind; [apply f64_files_storage_runs, H|]. cbv beta.
    rewrite count_images_images. apply runs_ret.
  - reflexivity.
Qed.

Lemma f64_period_stats_raises (strftime_date : Z -> string) (db : Store) (anchor i : Z)
    (tr : trace) :
  Float64.sizes_fit
    (within File.created_at (anchor + i * 86400) (anchor + (i + 1) * 86400) (files db))
  = false ->
  exists e tr', Float64.period_stats strftime_date db anchor i tr = (Raise e, tr').
Proof.
  intros H. unfold Float64.period_stats. cbv zeta.
  replace (anchor + i * 24 * 60 * 60) with (anchor + i * 86400) by lia.
  replace (anchor + i * 86400 + 24 * 60 * 60) with (anchor + (i + 1) * 86400) by lia.
  unfold files_in. rewrite !filter_in_period.
  unfold bind, db_count, bind, db_query, ret.
  destruct (f64_files_storage_raises _ zero
              (((((tr ++ [TChat]) ++ [TFile]) ++ [TFile]) ++ [TKnowledge]) ++ [TMessage]) H)
    as [e ->].
  eauto.
Qed.

(** A file is in one of the buckets exactly when it is in the period. *)
Lemma f64_buckets_cover_period (db : Store) (anchor days : Z) :
  forallb (fun i => Float64.sizes_fit
                      (within File.created_at (anchor + i * 86400)
                         (anchor + (i + 1) * 86400) (files db)))
    (py_range days)
  = Float64.sizes_fit (within File.created_at anchor (anchor + days * 86400) (files db)).
Proof.
  apply Bool.eq_iff_eq_true. unfold Float64.sizes_fit. rewrite !forallb_forall. split.
  - intros H x Hx. unfold within in Hx. apply filter_In in Hx as [Hin Hw].
    apply bool_decide_eq_true in Hw.
    set (i := (File.created_at x - anchor) / 86400).
    assert (Hi : 0 <= i < days /\ anchor + i * 86400 <= File.created_at x
                 /\ File.created_at x < anchor + (i + 1) * 86400).
    { unfold i.
      pose proof (Z.div_mod (File.created_at x - anchor) 86400 ltac:(lia)) as D.
      pose proof (Z.mod_pos_bound (File.created_at x - anchor) 86400 ltac:(lia)) as B.
      assert (0 <= (File.created_at x - anchor) / 86400)
        by (apply Z.div_pos; lia).
      assert ((File.created_at x - anchor) / 86400 < days)
        by (apply Z.div_lt_upper_bound; lia).
      lia. }
    destruct Hi as (Hr & Hlo & Hhi).
    specialize (H i (proj2 (In_py_range days i) Hr)).
    rewrite forallb_forall in H. apply H.
    unfold within. apply filter_In. split; [exact Hin|].
    apply bool_decide_eq_true. lia.
  - intros H i Hi. apply In_py_range in Hi. rewrite forallb_forall. intros x Hx.
    unfold within in Hx. apply filter_In in Hx as [Hin Hw].
    apply bool_decide_eq_true in Hw.
    apply H. unfold within. apply filter_In. split; [exact Hin|].
    apply bool_decide_eq_true. lia.
Qed.

Lemma f64_time_series_outcome (strftime_date : Z -> string) (db : Store)
    (period : string) (days now : Z) :
  period_days period = Some days ->
  fst (run (Float64.get_time_series_statistics strftime_date db period now))
  = if Float64.sizes_fit (within File.created_at (now - days * 86400) now (files db))
    then Ok (map (Float64.bucket_row strftime_date db (now - days * 86400)) (py_range days))
    else Raise (HTTPException 500 "Failed to get time series statistics").
Proof.
  intros Hp.
  set (anchor := now - days * 86400).
  set (ok := fun i => Float64.sizes_fit
                        (within File.created_at (anchor + i * 86400)
                           (anchor + (i + 1) * 86400) (files db))).
  assert (Hc : Float64.sizes_fit (within File.created_at anchor now (files db))
               = forallb ok (py_range days)).
  { unfold ok. rewrite f64_buckets_cover_period.
    replace (anchor + days * 86400) with now by (unfold anchor; lia). reflexivity. }
  rewrite Hc. clear Hc.
  unfold Float64.get_time_series_statistics. rewrite (period_choice period days Hp).
  assert (Hb : forall (k : Z -> M (list Float64.TimeRangeStats.t)),
             bind (ret days) k = k days)
    by reflexivity.
  rewrite Hb. clear Hb. cbv beta zeta.
  replace (now - days * 24 * 60 * 60) with anchor by (unfold anchor; lia).
  destruct (forallb ok (py_range days)) eqn:H.
  - apply returns_run, returns_try_except. do 5 mstep.
    apply returns_mapM. apply List.Forall_forall. intros i Hi.
    eapply runs_returns, f64_period_stats_runs.
    rewrite forallb_forall in H. apply (H i Hi).
  - unfold run, try_except, bind, ret, db_count, bind, db_query, ret. simpl.
    destruct (mapM_stops (Float64.period_stats strftime_date db anchor) ok
                (Float64.bucket_row strftime_date db anchor) (fun _ => bucket_queries)
                (py_range days)
                (f64_period_stats_runs strftime_date db anchor)
                (fun i tr Hi => f64_period_stats_raises strftime_date db anchor i tr Hi)
                H series_first_queries) as (e & tr' & E).
    unfold series_first_queries in E. rewrite E. reflexivity.
Qed.

(** ** The total and the five figures *)

(** C2 (fails as stated).  On a store holding one file of one mebibyte the
    overview reports a total of 1.0 MB, while its five category figures
    (0.0, 1.0, 0.3, 0.0, 0.0) add up to 1.3. *)
Lemma overview_total_differs_from_five_figures :
  exists o,
    fst (run (Float64.get_dashboard_overview store_one_file 0)) = Ok o
    /\ map Float64.ContentTypeStats.total_size_mb
         (Float64.DashboardOverview.content_type_breakdown o)
       = [Float64.of_int 0; Float64.of_int 1; Float64.float_literal (3 # 10);
          Float64.of_int 0; Float64.of_int 0]
    /\ Float64.DashboardOverview.total_storage_mb o = Float64.of_int 1
    /\ Float64.add_up zero
         (map Float64.ContentTypeStats.total_size_mb
            (Float64.DashboardOverview.content_type_breakdown o))
       = Float64.float_literal (13 # 10)
    /\ PrimFloat.eqb (Float64.DashboardOverview.total_storage_mb o)
         (Float64.add_up zero
            (map Float64.ContentTypeStats.total_size_mb
               (Float64.DashboardOverview.content_type_breakdown o)))
       = false.
Proof.
  eexists. split; [vm_compute; reflexivity|].
  repeat split; vm_compute; reflexivity.
Qed.

(** C2 (amended).  The total of the overview is the sum of the figures of
    four categories, in the order files, knowledge, chats, messages, taken
    unrounded and rounded once; the images figure, 0.3 times the file
    storage figure, is reported in the breakdown of the overview and of the
    content-type operation, and is not part of the total. *)
Theorem overview_total_is_sum_of_four_figures (db : Store) (now : Z) :
  Float64.sizes_fit (files db) = true ->
  let files_mb := Float64.files_mb (files db) in
  let knowledge_mb := Float64.of_int (count (knowledge db) * 1) in
  let chats_mb := (Float64.of_int (count (chats db)) * Float64.float_literal (1 # 10))%float in
  let messages_mb :=
    (Float64.of_int (count (messages db)) * Float64.float_literal (1 # 100))%float in
  let figures :=
    [ ("chats"%string, Float64.round2 chats_mb);
      ("files"%string, Float64.round2 files_mb);
      ("images"%string, Float64.round2 (files_mb * Float64.float_literal (3 # 10))%float);
      ("knowledge"%string, Float64.round2 knowledge_mb);
      ("messages"%string, Float64.round2 messages_mb) ] in
  (exists o,
      returns (Float64.get_dashboard_overview db now) o
      /\ Float64.DashboardOverview.total_storage_mb o
         = Float64.round2 (files_mb + knowledge_mb + chats_mb + messages_mb)%float
      /\ map (fun ct => (Float64.ContentTypeStats.content_type ct,
                         Float64.ContentTypeStats.total_size_mb ct))
           (Float64.DashboardOverview.content_type_breakdown o)
         = figures)
  /\ (exists rows,
        returns (Float64.get_content_type_statistics db) rows
        /\ map (fun ct => (Float64.ContentTypeStats.content_type ct,
                           Float64.ContentTypeStats.total_size_mb ct)) rows
           = figures).
Proof.
  intros Hdb files_mb knowledge_mb chats_mb messages_mb figures. split.
  - destruct (f64_overview_returns db now Hdb) as (o & R & T & B & _).
    exists o. split; [exact R|]. split; [exact T|]. rewrite B. reflexivity.
  - exists (Float64.breakdown db).
    split; [eapply runs_returns, f64_content_types_runs, Hdb | reflexivity].
Qed.

Lemma overview_total_on_sample :
  Float64.sizes_fit (files store_eighth_and_chat) = true
  /\ let db := store_eighth_and_chat in
     let files_mb := Float64.files_mb (files db) in
     let knowledge_mb := Float64.of_int (count (knowledge db) * 1) in
     let chats_mb :=
       (Float64.of_int (count (chats db)) * Float64.float_literal (1 # 10))%float in
     let messages_mb :=
       (Float64.of_int (count (messages db)) * Float64.float_literal (1 # 100))%float in
     let figures :=
       [ ("chats"%string, Float64.round2 chats_mb);
         ("files"%string, Float64.round2 files_mb);
         ("images"%string, Float64.round2 (files_mb * Float64.float_literal (3 # 10))%float);
         ("knowledge"%string, Float64.round2 knowledge_mb);
         ("messages"%string, Float64.round2 messages_mb) ] in
     (exists o,
         returns (Float64.get_dashboard_overview db 0) o
         /\ Float64.DashboardOverview.total_storage_mb o
            = Float64.round2 (files_mb + knowledge_mb + chats_mb + messages_mb)%float
         /\ map (fun ct => (Float64.ContentTypeStats.content_type ct,
                            Float64.ContentTypeStats.total_size_mb ct))
              (Float64.DashboardOverview.content_type_breakdown o)
            = figures)
     /\ (exists rows,
           returns (Float64.get_content_type_statistics db) rows
           /\ map (fun ct => (Float64.ContentTypeStats.content_type ct,
                              Float64.ContentTypeStats.total_size_mb ct)) rows
              = figures).
Proof.
  split; [reflexivity|].
  apply (overview_total_is_sum_of_four_figures store_eighth_and_chat 0). reflexivity.
Defined.

(** ** The total of a user *)




(** The user of [store_eighth_and_chat] owns a file of 0.125 MB and one
    chat: the double [0.125 + 0.1] lies above 0.225, and the listed total is
    0.23.  The file of [store_quarter_file] has 0.25 MB: the double
    [0.25 * 0.3] lies below 0.075, and the images figure is 0.07.  Of the 160
    entities of [store_23_of_160] 23 are chats: the double [23 / 160 * 100]
    lies below 14.375, and the percentage is 14.37. *)
Example figures_at_the_ties_of_the_doubles :
  map Float64.UserStorageStats.storage_usage_mb
    (sort_reverse PrimFloat.ltb Float64.UserStorageStats.storage_usage_mb
       (map (Float64.user_row store_eighth_and_chat) (users store_eighth_and_chat)))
  = [Float64.float_literal (23 # 100)]
  /\ (exists rows,
        fst (run (Float64.get_users_storage_stats store_eighth_and_chat None)) = Ok rows
        /\ map Float64.UserStorageStats.storage_usage_mb rows
           = [Float64.float_literal (23 # 100)])
  /\ (exists rows,
        fst (run (Float64.get_content_type_statistics store_quarter_file)) = Ok rows
        /\ map Float64.ContentTypeStats.total_size_mb rows
           = [Float64.of_int 0; Float64.float_literal (25 # 100);
              Float64.float_literal (7 # 100); Float64.of_int 0; Float64.of_int 0])
  /\ (exists rows,
        fst (run (Float64.get_content_type_statistics store_23_of_160)) = Ok rows
        /\ map Float64.ContentTypeStats.percentage rows
           = [Float64.float_literal (1437 # 100); Float64.of_int 0; Float64.of_int 0;
              Float64.of_int 0; Float64.float_literal (8562 # 100)]).
Proof.
  split; [vm_compute; reflexivity|].
  repeat split; eexists; (split; [vm_compute; reflexivity|]); vm_compute; reflexivity.
Qed.

(** ** The figures of a group *)

(** C7 (fails as stated).  In [store_group_of_two] the first member owns one
    chat (an estimate of 0.1 MB) and the second a file of 0.875 MB and three
    chats (an estimate of 1.175 MB, listed as 1.18).  The group listing
    reports 1.27 MB for the group: its running sum takes 0.1, 0.975 and then
    1.275 in a double that lies below 1.275.  The members' estimates add up
    to 1.28, whether the unrounded estimates are added and the sum rounded,
    or the listed totals are added, in the doubles as over the rationals. *)
Lemma group_figure_differs_from_member_sum :
  exists row r1 r2,
    fst (run (Float64.get_groups_activity_stats store_group_of_two None)) = Ok [row]
    /\ Float64.GroupStats.storage_usage_mb row = Float64.float_literal (127 # 100)
    /\ fst (run (Float64.get_users_storage_stats store_group_of_two None)) = Ok [r2; r1]
    /\ Float64.UserStorageStats.user_id r1 = "u1"%string
    /\ Float64.UserStorageStats.user_id r2 = "u2"%string
    /\ Float64.UserStorageStats.storage_usage_mb r1 = Float64.float_literal (10 # 100)
    /\ Float64.UserStorageStats.storage_usage_mb r2 = Float64.float_literal (118 # 100)
    /\ (Float64.UserStorageStats.storage_usage_mb r1
        + Float64.UserStorageStats.storage_usage_mb r2)%float
       = Float64.float_literal (128 # 100)
    /\ Float64.sum_of_member_estimates store_group_of_two ["u1"; "u2"]%string
       = Float64.float_literal (128 # 100)
    /\ (round2 (sumQ (map (user_mb store_group_of_two) ["u1"; "u2"]%string)) == 128 # 100)%Q
    /\ PrimFloat.eqb (Float64.GroupStats.storage_usage_mb row)
         (Float64.sum_of_member_estimates store_group_of_two ["u1"; "u2"]%string)
       = false.
Proof.
  do 3 eexists. split; [vm_compute; reflexivity|].
  split; [vm_compute; reflexivity|].
  split; [vm_compute; reflexivity|].
  repeat split; vm_compute; reflexivity.
Qed.

Lemma group_row_adds_member (db : Store) (g : Group.t) (pre post : list string)
    (uid : string) :
  listed_ids g = pre ++ uid :: post ->
  let rest := pre ++ post in
  let row := Float64.group_row db g in
  Float64.GroupStats.total_chats row
  = count (owned Chat.user_id uid (chats db))
    + sumZ (map (fun u => count (owned Chat.user_id u (chats db))) rest)
  /\ Float64.GroupStats.total_files row
     = count (owned File.user_id uid (files db))
       + sumZ (map (fun u => count (owned File.user_id u (files db))) rest)
  /\ Float64.GroupStats.total_images row
     = count (images (owned File.user_id uid (files db)))
       + sumZ (map (fun u => count (images (owned File.user_id u (files db)))) rest)
  /\ Float64.GroupStats.total_knowledge row
     = count (owned Knowledge.user_id uid (knowledge db))
       + sumZ (map (fun u => count (owned Knowledge.user_id u (knowledge db))) rest)
  /\ Float64.GroupStats.total_messages row
     = count (owned Message.user_id uid (messages db))
       + sumZ (map (fun u => count (owned Message.user_id u (messages db))) rest).
Proof.
  intros Hids rest row. unfold row, Float64.group_row. simpl. rewrite Hids.
  rewrite !sumZ_middle. repeat split; reflexivity.
Qed.

(** C7 (amended).  The per-group listing is the ranking of the rows of all
    groups, cut by the limit.  The row of a group holds, for each category,
    the sum of the counts of the ids the group lists, an id counting once
    for each time it is listed and in full in every group that lists it.
    Its storage MB is one running sum, rounded once at the end: for each
    listed id in turn, the declared sizes of its files in MB one by one,
    then its knowledge entries, chats and messages at their rates.  For a
    group of one member that figure is the member's own total, the rounding
    of the member's estimate; for a larger group it is the sum of the
    members' estimates up to the rounding of the doubles. *)
Theorem group_listing_sums_over_members (db : Store) (limit : option Z) :
  Float64.sizes_fit (files db) = true ->
  (exists rows ranking,
      returns (Float64.get_groups_activity_stats db limit) rows
      /\ Permutation ranking (map (Float64.group_row db) (groups db))
      /\ rows = firstn (rows_kept limit (length (groups db))) ranking)
  /\ (forall g pre uid post,
        listed_ids g = pre ++ uid :: post ->
        let rest := pre ++ post in
        let row := Float64.group_row db g in
        Float64.GroupStats.total_chats row
        = count (owned Chat.user_id uid (chats db))
          + sumZ (map (fun u => count (owned Chat.user_id u (chats db))) rest)
        /\ Float64.GroupStats.total_files row
           = count (owned File.user_id uid (files db))
             + sumZ (map (fun u => count (owned File.user_id u (files db))) rest)
        /\ Float64.GroupStats.total_images row
           = count (images (owned File.user_id uid (files db)))
             + sumZ (map (fun u => count (images (owned File.user_id u (files db)))) rest)
        /\ Float64.GroupStats.total_knowledge row
           = count (owned Knowledge.user_id uid (knowledge db))
             + sumZ (map (fun u => count (owned Knowledge.user_id u (knowledge db))) rest)
        /\ Float64.GroupStats.total_messages row
           = count (owned Message.user_id uid (messages db))
             + sumZ (map (fun u => count (owned Message.user_id u (messages db))) rest))
  /\ (forall g uid,
        listed_ids g = [uid] ->
        Float64.GroupStats.storage_usage_mb (Float64.group_row db g)
        = Float64.round2 (Float64.user_mb db uid)).
Proof.
  intros Hdb. split; [|split].
  - exists (firstn (rows_kept limit (length (groups db)))
              (sort_reverse Z.ltb Float64.group_activity
                 (map (Float64.group_row db) (groups db)))),
      (sort_reverse Z.ltb Float64.group_activity (map (Float64.group_row db) (groups db))).
    split; [|split].
    + eapply runs_returns.
      apply (f64_groups_listing_runs db limit).
      apply forallb_forall. intros g _. apply fits_every_id, Hdb.
    + apply sort_reverse_perm.
    + reflexivity.
  - intros g pre uid post Hids. apply (group_row_adds_member db g pre post uid Hids).
  - intros g uid Hids. unfold Float64.group_row. rewrite Hids. reflexivity.
Qed.

Lemma group_listing_on_sample :
  Float64.sizes_fit (files store_sample) = true
  /\ (exists rows ranking,
        returns (Float64.get_groups_activity_stats store_sample (Some 2)) rows
        /\ Permutation ranking (map (Float64.group_row store_sample) (groups store_sample))
        /\ rows = firstn (rows_kept (Some 2) (length (groups store_sample))) ranking)
  /\ (forall g pre uid post,
        listed_ids g = pre ++ uid :: post ->
        let rest := pre ++ post in
        let row := Float64.group_row store_sample g in
        Float64.GroupStats.total_chats row
        = count (owned Chat.user_id uid (chats store_sample))
          + sumZ (map (fun u => count (owned Chat.user_id u (chats store_sample))) rest)
        /\ Float64.GroupStats.total_files row
           = count (owned File.user_id uid (files store_sample))
             + sumZ (map (fun u => count (owned File.user_id u (files store_sample))) rest)
        /\ Float64.GroupStats.total_images row
           = count (images (owned File.user_id uid (files store_sample)))
             + sumZ (map (fun u => count (images (owned File.user_id u (files store_sample))))
                       rest)
        /\ Float64.GroupStats.total_knowledge row
           = count (owned Knowledge.user_id uid (knowledge store_sample))
             + sumZ (map (fun u => count (owned Knowledge.user_id u (knowledge store_sample)))
                       rest)
        /\ Float64.GroupStats.total_messages row
           = count (owned Message.user_id uid (messages store_sample))
             + sumZ (map (fun u => count (owned Message.user_id u (messages store_sample)))
                       rest))
  /\ (forall g uid,
        listed_ids g = [uid] ->
        Float64.GroupStats.storage_usage_mb (Float64.group_row store_sample g)
        = Float64.round2 (Float64.user_mb store_sample uid)).
Proof.
  split; [reflexivity|].
  apply (group_listing_sums_over_members store_sample (Some 2)). reflexivity.
Defined.

(** In [store_sample] the user [u1] (10 chats, 3 files, 2 knowledge entries,
    100 messages, 7 MB) belongs to the groups [g1] and [g2], and counts in
    full in both. *)
Example sample_groups_share_a_member :
  fst (run (Float64.get_groups_activity_stats store_sample default_limit))
  = Ok [Float64.GroupStats.mk "g1" "Staff" 2 10 5 1 2 100 (Float64.of_int 7);
        Float64.GroupStats.mk "g2" "Admins" 1 10 3 0 2 100 (Float64.of_int 7);
        Float64.GroupStats.mk "g3" "Empty" 0 0 0 0 0 0 (Float64.of_int 0)].
Proof. vm_compute. reflexivity. Qed.

(** In [store_small_files] each member's own listed total is 0.01 MB, and
    the total of their group is 0.01 MB as well: the group figure is the
    rounding of one sum, not the sum of the members' rounded totals. *)
Example group_total_rounds_once :
  fst (run (Float64.get_users_storage_stats store_small_files default_limit))
  = Ok [Float64.UserStorageStats.mk "u1" "Ann" "ann@example.org" 0 1 0 0 0
          (Float64.float_literal (1 # 100)) 0;
        Float64.UserStorageStats.mk "u2" "Bob" "bob@example.org" 0 1 0 0 0
          (Float64.float_literal (1 # 100)) 0]
  /\ fst (run (Float64.get_groups_activity_stats store_small_files default_limit))
     = Ok [Float64.GroupStats.mk "g1" "Staff" 2 0 2 0 0 0 (Float64.float_literal (1 # 100))].
Proof. split; vm_compute; reflexivity. Qed.

(** ** Which declared sizes make an operation fail *)

(** X2.  The content-type operation issues its five queries and then either
    returns the breakdown, when every declared size of the store has its MB,
    or fails with its 500, when one has not: a size that is not a number, or
    an int so large that its MB is beyond the doubles. *)
Theorem content_types_outcome (db : Store) :
  run (Float64.get_content_type_statistics db)
  = (if Float64.sizes_fit (files db)
     then Ok (Float64.breakdown db)
     else Raise (HTTPException 500 "Failed to get content type statistics"),
     content_type_queries).
Proof.
  destruct (Float64.sizes_fit (files db)) eqn:Hdb.
  - apply runs_trace, f64_content_types_runs, Hdb.
  - apply f64_content_types_raises, Hdb.
Qed.

(** X15.  The per-user listing returns exactly when every declared size of the
    files of the fetched users has its MB, and its rows are then the rows
    of the fetched users; it fails with its 500 otherwise.  A size without
    MB on a file of a user beyond the limit, or of no user, does not make
    it fail. *)
Theorem users_listing_outcome (db : Store) (limit : option Z) :
  let fit :=
    forallb (fun u => Float64.sizes_fit (owned File.user_id (User.id u) (files db)))
      (fetched_users db limit) in
  match fst (run (Float64.get_users_storage_stats db limit)) with
  | Ok rows =>
      fit = true /\ Permutation rows (map (Float64.user_row db) (fetched_users db limit))
  | Raise e =>
      fit = false /\ e = HTTPException 500 "Failed to get users storage statistics"
  end.
Proof.
  intros fit. destruct fit eqn:H; unfold fit in H.
  - rewrite (runs_trace _ _ _ (f64_users_listing_runs db limit H)). simpl.
    split; [reflexivity | apply sort_reverse_perm].
  - rewrite (f64_users_listing_raises db limit H). split; reflexivity.
Qed.

(** The malformed file of [store_malformed_size] belongs to the second user:
    a listing limited to the first user returns, a listing of both fails. *)
Example limit_shields_from_malformed_size :
  fst (run (Float64.get_users_storage_stats store_malformed_size (Some 1)))
  = Ok [Float64.UserStorageStats.mk "u1" "Ann" "ann@example.org" 10 3 0 2 100
          (Float64.of_int 7) 100]
  /\ fst (run (Float64.get_users_storage_stats store_malformed_size (Some 2)))
     = Raise (HTTPException 500 "Failed to get users storage statistics").
Proof. split; vm_compute; reflexivity. Qed.

Lemma f64_time_series_returns (strftime_date : Z -> string) (db : Store)
    (period : string) (days now : Z) :
  period_days period = Some days ->
  Float64.sizes_fit (within File.created_at (now - days * 86400) now (files db)) = true ->
  returns (Float64.get_time_series_statistics strftime_date db period now)
    (map (Float64.bucket_row strftime_date db (now - days * 86400)) (py_range days)).
Proof.
  intros Hp H.
  set (anchor := now - days * 86400) in *.
  replace now with (anchor + days * 86400) in H by (unfold anchor; lia).
  rewrite <- f64_buckets_cover_period in H.
  unfold Float64.get_time_series_statistics. rewrite (period_choice period days Hp).
  assert (Hb : forall (k : Z -> M (list Float64.TimeRangeStats.t)),
             bind (ret days) k = k days)
    by reflexivity.
  rewrite Hb. clear Hb. cbv beta zeta.
  replace (now - days * 24 * 60 * 60) with anchor by (unfold anchor; lia).
  apply returns_try_except. do 5 mstep.
  apply returns_mapM. apply List.Forall_forall. intros i Hi.
  eapply runs_returns, f64_period_stats_runs.
  rewrite forallb_forall in H. apply (H i Hi).
Qed.

Lemma f64_bucket_rows_lookup (strftime_date : Z -> string) (db : Store) (anchor days : Z)
    (i : nat) (row : Float64.TimeRangeStats.t) :
  map (Float64.bucket_row strftime_date db anchor) (py_range days) !! i = Some row ->
  row = Float64.bucket_row strftime_date db anchor (Z.of_nat i).
Proof.
  intros Hrow. rewrite list_lookup_fmap in Hrow.
  destruct (py_range days !! i) as [z|] eqn:E; simpl in Hrow; [|discriminate].
  apply lookup_py_range in E as ->. injection Hrow as <-. reflexivity.
Qed.

(** X16.  For a valid period the series returns, one row for each day,
    exactly when every declared size of the files created in the period has
    its MB, and fails with its 500 otherwise: a size without MB on a file
    created before the period, or from now on, does not make it fail. *)
Theorem time_series_outcome (strftime_date : Z -> string) (db : Store)
    (period : string) (days now : Z) :
  period_days period = Some days ->
  let fit :=
    Float64.sizes_fit (within File.created_at (now - days * 86400) now (files db)) in
  match fst (run (Float64.get_time_series_statistics strftime_date db period now)) with
  | Ok rows => fit = true /\ length rows = Z.to_nat days
  | Raise e => fit = false /\ e = HTTPException 500 "Failed to get time series statistics"
  end.
Proof.
  intros Hp fit.
  rewrite (f64_time_series_outcome strftime_date db period days now Hp).
  fold fit. destruct fit.
  - split; [reflexivity|]. rewrite length_map. apply length_py_range.
  - split; reflexivity.
Qed.

Lemma time_series_outcome_on_sample :
  period_days "7d" = Some 7
  /\ let fit :=
       Float64.sizes_fit
         (within File.created_at (604800 - 7 * 86400) 604800 (files store_malformed_size)) in
     match fst (run (Float64.get_time_series_statistics sample_strftime_date
                       store_malformed_size "7d" 604800)) with
     | Ok rows => fit = true /\ length rows = Z.to_nat 7
     | Raise e =>
         fit = false /\ e = HTTPException 500 "Failed to get time series statistics"
     end.
Proof.
  split; [reflexivity|].
  apply (time_series_outcome sample_strftime_date store_malformed_size "7d" 7 604800).
  reflexivity.
Defined.

(** The malformed file of [store_malformed_size] was created 5 seconds after
    the epoch: the week that ends at 604800 holds it and the series fails,
    the week that ends one day later does not and the series returns. *)
Example malformed_size_outside_the_period :
  fst (run (Float64.get_time_series_statistics sample_strftime_date store_malformed_size
              "7d" 604800))
  = Raise (HTTPException 500 "Failed to get time series statistics")
  /\ exists rows,
       fst (run (Float64.get_time_series_statistics sample_strftime_date
                   store_malformed_size "7d" 691200))
       = Ok rows /\ length rows = 7%nat.
Proof. split; [vm_compute; reflexivity|]. eexists. split; vm_compute; reflexivity. Qed.

(** X6.  The storage figure of a bucket is the estimate of what was created in
    its 24 hours, rounded once: the declared sizes of the files in MB, 1 MB
    for each knowledge entry, 0.1 MB for each chat and 0.01 MB for each
    message, added in that order in the arithmetic of the doubles.  The
    knowledge entries weigh in the figure although the row reports no count
    of them. *)
Theorem time_series_bucket_storage (strftime_date : Z -> string) (db : Store)
    (period : string) (days now : Z) :
  period_days period = Some days ->
  Float64.sizes_fit (within File.created_at (now - days * 86400) now (files db)) = true ->
  exists rows,
    returns (Float64.get_time_series_statistics strftime_date db period now) rows
    /\ forall (i : nat) row, rows !! i = Some row ->
         let lo := now - days * 86400 + Z.of_nat i * 86400 in
         let hi := now - days * 86400 + (Z.of_nat i + 1) * 86400 in
         Float64.TimeRangeStats.storage_used_mb row
         = Float64.round2
             (Float64.files_mb (within File.created_at lo hi (files db))
              + Float64.of_int (count (within Knowledge.created_at lo hi (knowledge db)) * 1)
              + Float64.of_int (count (within Chat.created_at lo hi (chats db)))
                * Float64.float_literal (1 # 10)
              + Float64.of_int
                  (count (within Message.created_at (lo * 1000000000) (hi * 1000000000)
                            (messages db)))
                * Float64.float_literal (1 # 100))%float.
Proof.
  intros Hp H. eexists.
  split; [apply (f64_time_series_returns strftime_date db period days now Hp H)|].
  intros i row Hrow. apply f64_bucket_rows_lookup in Hrow as ->. reflexivity.
Qed.

Lemma time_series_bucket_storage_on_sample :
  period_days "7d" = Some 7
  /\ Float64.sizes_fit (within File.created_at (604800 - 7 * 86400) 604800
                          (files store_sample)) = true
  /\ exists rows,
       returns (Float64.get_time_series_statistics sample_strftime_date store_sample "7d"
                  604800) rows
       /\ forall (i : nat) row, rows !! i = Some row ->
            let lo := 604800 - 7 * 86400 + Z.of_nat i * 86400 in
            let hi := 604800 - 7 * 86400 + (Z.of_nat i + 1) * 86400 in
            Float64.TimeRangeStats.storage_used_mb row
            = Float64.round2
                (Float64.files_mb (within File.created_at lo hi (files store_sample))
                 + Float64.of_int
                     (count (within Knowledge.created_at lo hi (knowledge store_sample)) * 1)
                 + Float64.of_int (count (within Chat.created_at lo hi (chats store_sample)))
                   * Float64.float_literal (1 # 10)
                 + Float64.of_int
                     (count (within Message.created_at (lo * 1000000000)
                               (hi * 1000000000) (messages store_sample)))
                   * Float64.float_literal (1 # 100))%float.
Proof.
  split; [reflexivity|]. split; [reflexivity|].
  apply (time_series_bucket_storage sample_strftime_date store_sample "7d" 7 604800);
    reflexivity.
Defined.

(** X18.  The per-group listing returns exactly when every declared size of the
    files of the ids of every group has its MB, and fails with its 500
    otherwise, whatever the limit: the member of a group that the limit would
    cut from the listing makes it fail all the same, while a size without MB
    on a file of a user who is in no group does not. *)
Theorem groups_listing_outcome (db : Store) (limit : option Z) :
  let fit :=
    forallb (fun g => forallb (fun uid => Float64.sizes_fit
                                            (owned File.user_id uid (files db)))
                        (listed_ids g)) (groups db) in
  match fst (run (Float64.get_groups_activity_stats db limit)) with
  | Ok rows =>
      fit = true
      /\ exists ranking,
           Permutation ranking (map (Float64.group_row db) (groups db))
           /\ rows = firstn (rows_kept limit (length (groups db))) ranking
  | Raise e =>
      fit = false /\ e = HTTPException 500 "Failed to get groups activity statistics"
  end.
Proof.
  intros fit. destruct fit eqn:H; unfold fit in H.
  - rewrite (runs_trace _ _ _ (f64_groups_listing_runs db limit H)). simpl.
    split; [reflexivity|]. eexists. split; [|reflexivity]. apply sort_reverse_perm.
  - rewrite (f64_groups_listing_raises db limit H). split; reflexivity.
Qed.

(** In [store_malformed_size] the owner of the malformed file is a member of
    the first group only; the listing fails even with a limit. *)
Example limit_does_not_shield_group_listing :
  fst (run (Float64.get_groups_activity_stats store_malformed_size (Some 1)))
  = Raise (HTTPException 500 "Failed to get groups activity statistics").
Proof. vm_compute. reflexivity. Qed.

(** The file of [store_huge_size] declares [10 ** 400] bytes, a number whose
    MB is beyond the doubles: the division raises [OverflowError], and every
    operation that reaches the file fails with its 500. *)
Example huge_size_fails_the_operations :
  Float64.py_truediv (PInt (10 ^ 400)) (1024 * 1024)
  = Raise (OverflowError "integer division result too large for a float")
  /\ Float64.sizes_fit (files store_huge_size) = false
  /\ fst (run (Float64.get_content_type_statistics store_huge_size))
     = Raise (HTTPException 500 "Failed to get content type statistics")
  /\ fst (run (Float64.get_dashboard_overview store_huge_size 0))
     = Raise (HTTPException 500 "Failed to get dashboard overview")
  /\ fst (run (Float64.get_users_storage_stats store_huge_size None))
     = Raise (HTTPException 500 "Failed to get users storage statistics")
  /\ fst (run (Float64.get_groups_activity_stats store_huge_size None))
     = Raise (HTTPException 500 "Failed to get groups activity statistics")
  /\ fst (run (Float64.get_time_series_statistics sample_strftime_date store_huge_size
                 "7d" 86400))
     = Raise (HTTPException 500 "Failed to get time series statistics").
Proof. repeat split; vm_compute; reflexivity. Qed.

Lemma f64_overview_raises (db : Store) (now : Z) :
  Float64.sizes_fit (files db) = false ->
  run (Float64.get_dashboard_overview db now)
  = (Raise (HTTPException 500 "Failed to get dashboard overview"), overview_first_queries).
Proof.
  intros Hdb.
  unfold Float64.get_dashboard_overview, run, try_except, Users_get_num_users, bind,
    db_count, bind, db_query, ret.
  destruct (f64_files_storage_raises (files db) zero
              (((((((([] ++ [TUser]) ++ [TUser]) ++ [TUser]) ++ [TChat]) ++ [TFile])
                  ++ [TKnowledge]) ++ [TMessage]) ++ [TFile]) Hdb)
    as [e ->].
  reflexivity.
Qed.

(** X19.  The overview returns exactly when every declared size of the store
    has its MB, and then its breakdown is the breakdown of the content-type
    operation; otherwise, for a size that is not a number as for an int
    whose MB is beyond the doubles, it fails with its 500 after the eight
    queries of its global counts, before any query about a user or a
    group. *)
Theorem overview_outcome (db : Store) (now : Z) :
  match run (Float64.get_dashboard_overview db now) with
  | (Ok o, _) =>
      Float64.sizes_fit (files db) = true
      /\ Float64.DashboardOverview.content_type_breakdown o = Float64.breakdown db
      /\ run (Float64.get_content_type_statistics db)
         = (Ok (Float64.DashboardOverview.content_type_breakdown o), content_type_queries)
  | (Raise e, queries) =>
      Float64.sizes_fit (files db) = false
      /\ e = HTTPException 500 "Failed to get dashboard overview"
      /\ queries = overview_first_queries
  end.
Proof.
  destruct (Float64.sizes_fit (files db)) eqn:Hdb.
  - destruct (f64_overview_returns db now Hdb) as (o & R & _ & B & _).
    unfold run at 1. destruct (R []) as [tr ->].
    split; [reflexivity|]. split; [exact B|].
    rewrite B. apply runs_trace, f64_content_types_runs, Hdb.
  - rewrite (f64_overview_raises db now Hdb). repeat split.
Qed.

(** * The claims on the percentages and on the limit *)






